(** * ensemble-net: the NCAR ensemble data tools ([data_tools/ncar.py])

    A shallow embedding of the [NCARArray] class: the retrieval planner and
    downloader ([retrieve]), the ingestion engine ([write]), the spatial index
    ([closest_lat_lon], [get_xy_bounds_from_latlon]) and the dataset facade
    ([open], [field], [close]).

    Python objects become records, the file system and the terminal become an
    explicit [world], and code that can raise returns a [result].  The
    arithmetic of numpy's float arrays is kept abstract ([Float32]): the
    theorems that need a law of it say which one. *)

From stdpp Require Import gmap strings list fin_maps pretty.
From Stdlib Require Import ZArith Ascii String SpecFloat.

Open Scope string_scope.
Open Scope list_scope.
Open Scope Z_scope.

(** ** Exceptions and results *)

(** The exception classes the module's handlers tell apart.  In Python 3
    [IOError] is an alias of [OSError]. *)
Inductive exn :=
| OSError
| ValueError
| RuntimeError
| AttributeError
| KeyError
| TypeError
| IndexError
| OtherError.

#[global] Instance exn_eq_dec : EqDecision exn.
Proof. solve_decision. Defined.

Inductive result (A : Type) :=
| Ok (a : A)
| Raise (e : exn).
Arguments Ok {A} a.
Arguments Raise {A} e.

Definition is_ok {A} (r : result A) : bool :=
  match r with Ok _ => true | Raise _ => false end.

(** ** Strings: [str.format], [strftime], [str.endswith] *)

Module Str.

Fixpoint replicate_char (n : nat) (c : ascii) : string :=
  match n with
  | O => ""
  | S n' => String c (replicate_char n' c)
  end.

(** [s.rjust(w, c)], which is what the format spec [{:c>w}] does. *)
Definition rjust (w : nat) (c : ascii) (s : string) : string :=
  replicate_char (w - String.length s)%nat c +:+ s.

(** [s.endswith(suffix)] *)
Definition endswith (s suffix : string) : bool :=
  bool_decide (String.substring (String.length s - String.length suffix)%nat
                                (String.length suffix) s = suffix)
  && bool_decide (String.length suffix <= String.length s)%nat.

(** [str(n)] for a Python int. *)
Definition of_int (n : Z) : string := pretty n.

(** One replacement field of [str.format], for an int argument: the two
    specs the module's format strings use, [{:d}] and [{:0>3d}]. *)
Definition format_field (spec : string) (arg : Z) : string :=
  if bool_decide (spec = ":0>3d") then rjust 3 "0" (of_int arg)
  else of_int arg.

(** [fmt.format( *args )] with automatically numbered fields.  [field] holds
    the text of the replacement field being read, if any. *)
Fixpoint format_go (fmt : string) (field : option string) (args : list Z)
  : string :=
  match fmt with
  | EmptyString => ""
  | String c rest =>
      match field with
      | None =>
          if Ascii.eqb c "{" then format_go rest (Some "") args
          else String c (format_go rest None args)
      | Some spec =>
          if Ascii.eqb c "}" then
            match args with
            | a :: args' => format_field spec a +:+ format_go rest None args'
            | [] => format_go rest None []
            end
          else format_go rest (Some (spec +:+ String c "")) args
      end
  end.

Definition format (fmt : string) (args : list Z) : string :=
  format_go fmt None args.

(** [int(s)] for a [str] of ASCII characters: blanks around the literal
    are dropped, then an optional sign and decimal digits are read, where
    single underscores may separate digits. *)
Definition is_space (c : ascii) : bool :=
  let n := nat_of_ascii c in
  ((9 <=? n) && (n <=? 13) || (28 <=? n) && (n <=? 32))%nat.

Fixpoint lstrip (s : string) : string :=
  match s with
  | EmptyString => ""
  | String c rest => if is_space c then lstrip rest else s
  end.

Definition strip (s : string) : string :=
  String.rev (lstrip (String.rev (lstrip s))).

Definition digit_of (c : ascii) : option Z :=
  let n := Z.of_nat (nat_of_ascii c) in
  if (48 <=? n) && (n <=? 57) then Some (n - 48) else None.

Definition starts_with_digit (s : string) : bool :=
  match s with
  | String c _ => match digit_of c with Some _ => true | None => false end
  | EmptyString => false
  end.

Fixpoint digits_go (s : string) (acc : Z) : option Z :=
  match s with
  | EmptyString => Some acc
  | String c rest =>
      match digit_of c with
      | Some d => digits_go rest (10 * acc + d)
      | None =>
          if Ascii.eqb c "_" && starts_with_digit rest
          then digits_go rest acc else None
      end
  end.

Definition to_int (s : string) : result Z :=
  let digits (t : string) (sign : Z) : result Z :=
    if starts_with_digit t then
      match digits_go t 0 with
      | Some n => Ok (sign * n)
      | None => Raise ValueError
      end
    else Raise ValueError in
  match strip s with
  | String c rest =>
      if Ascii.eqb c "-" then digits rest (-1)
      else if Ascii.eqb c "+" then digits rest 1
      else digits (String c rest) 1
  | EmptyString => Raise ValueError
  end.

(** The format ['* Reason: "%s"'], whose [%s] stands in double quotes. *)
Definition dquote : string := String (ascii_of_nat 34) "".

Definition reason_format : string :=
  Eval cbv in String.app "* Reason: " (String.app dquote (String.app "%s" dquote)).

End Str.

(** ** [datetime] *)

Record datetime := mk_datetime {
  year : Z; month : Z; day : Z; hour : Z; minute : Z; second : Z;
  microsecond : Z
}.

#[global] Instance datetime_eq_dec : EqDecision datetime.
Proof. solve_decision. Defined.

(** [datetime(y, m, d)] *)
Definition date (y m d : Z) : datetime := mk_datetime y m d 0 0 0 0.

Module Datetime.

Definition fields (d : datetime) : list Z :=
  [year d; month d; day d; hour d; minute d; second d; microsecond d].

Fixpoint lex_ltb (a b : list Z) : bool :=
  match a, b with
  | x :: a', y :: b' => (x <? y) || ((x =? y) && lex_ltb a' b')
  | [], _ :: _ => true
  | _, [] => false
  end.

(** [a < b] and [a > b] on naive datetimes. *)
Definition ltb (a b : datetime) : bool := lex_ltb (fields a) (fields b).
Definition gtb (a b : datetime) : bool := ltb b a.
(** [a >= b] *)
Definition geb (a b : datetime) : bool := negb (ltb a b).

(** One [strftime] directive: [%Y] (four digits), [%m], [%d], [%H] (two). *)
Definition directive (d : datetime) (c : ascii) : string :=
  if Ascii.eqb c "Y" then Str.rjust 4 "0" (Str.of_int (year d))
  else if Ascii.eqb c "m" then Str.rjust 2 "0" (Str.of_int (month d))
  else if Ascii.eqb c "d" then Str.rjust 2 "0" (Str.of_int (day d))
  else if Ascii.eqb c "H" then Str.rjust 2 "0" (Str.of_int (hour d))
  else String "%" (String c "").

(** [datetime.strftime(d, fmt)]: [pct] says that the last character read was
    an unconsumed [%]. *)
Fixpoint strftime_go (d : datetime) (fmt : string) (pct : bool) : string :=
  match fmt with
  | EmptyString => if pct then "%" else ""
  | String c rest =>
      if pct then directive d c +:+ strftime_go d rest false
      else if Ascii.eqb c "%" then strftime_go d rest true
      else String c (strftime_go d rest false)
  end.

Definition strftime (d : datetime) (fmt : string) : string :=
  strftime_go d fmt false.

End Datetime.

Notation "a <dt b" := (Datetime.ltb a b) (at level 70, no associativity).
Notation "a >dt b" := (Datetime.gtb a b) (at level 70, no associativity).
Notation "a >=dt b" := (Datetime.geb a b) (at level 70, no associativity).

(** ** Module-level constants *)

Definition diags_file_format : string :=
  "%Y/%Y%m%d/diags_d02_%Y%m%d%H_mem_{:d}_f{:0>3d}.nc".
Definition grib_file_format : string :=
  "%Y/%Y%m%d/ncar_3km_%Y%m%d%H_mem{:d}_f{:0>3d}.grb".
Definition sounding_file_format : string :=
  "%Y/%Y%m%d/sound_%Y%m%d%H_mem_{:d}.nc".

Definition data_start_date : datetime := date 2015 4 21.
Definition data_end_date : datetime := date 2017 12 31.
Definition data_grib1to2_date : datetime := date 2015 9 1.

(** ** numpy arrays over an abstract float type *)

(** The float type of the arrays and the operations the module applies to
    it.  [fltb] is Python's [<]; [a > b] is [fltb b a]. *)
Class Float32 := {
  F : Type;
  f0 : F;        (* 0.    *)
  f1 : F;        (* 1.    *)
  f360 : F;      (* 360.  *)
  f1e30 : F;     (* 1.e30 *)
  fnan : F;      (* np.nan *)
  fadd : F → F → F;
  fsub : F → F → F;
  fsq : F → F;   (* x ** 2 *)
  fltb : F → F → bool;
  fisnan : F → bool
}.

(** Whole-number readings with a nan, on which float arithmetic is exact:
    the instance the concrete examples are computed in. *)
Inductive zfloat :=
| Fin (z : Z)
| NaN.

Definition zf_lift2 (op : Z → Z → Z) (a b : zfloat) : zfloat :=
  match a, b with
  | Fin x, Fin y => Fin (op x y)
  | _, _ => NaN
  end.

#[global] Instance ZFloat : Float32 := {|
  F := zfloat;
  f0 := Fin 0;
  f1 := Fin 1;
  f360 := Fin 360;
  f1e30 := Fin (10 ^ 30);
  fnan := NaN;
  fadd := zf_lift2 Z.add;
  fsub := zf_lift2 Z.sub;
  fsq := fun a => zf_lift2 Z.mul a a;
  fltb := fun a b =>
    match a, b with Fin x, Fin y => x <? y | _, _ => false end;
  fisnan := fun a => match a with NaN => true | Fin _ => false end
|}.

(** IEEE arithmetic as the standard library specifies it, with [prec] bits
    of mantissa, the infinities at exponent [emax] and rounding to nearest
    even: [np.float32] is [Binary32], Python's [float] is [Binary64]. *)
Definition sf_of_Z (prec emax z : Z) : spec_float :=
  binary_normalize prec emax z 0 false.

Definition sf_is_nan (a : spec_float) : bool :=
  match a with S754_nan => true | _ => false end.

Definition IEEE (prec emax : Z) : Float32 := {|
  F := spec_float;
  f0 := S754_zero false;
  f1 := sf_of_Z prec emax 1;
  f360 := sf_of_Z prec emax 360;
  f1e30 := sf_of_Z prec emax (10 ^ 30);
  fnan := S754_nan;
  fadd := SFadd prec emax;
  fsub := SFsub prec emax;
  fsq := fun a => SFmul prec emax a a;
  fltb := SFltb;
  fisnan := sf_is_nan
|}.

Definition Binary32 : Float32 := IEEE 24 128.
Definition Binary64 : Float32 := IEEE 53 1024.

(** The place of a float that is not nan in the order of [<]: negative
    infinity, the negative numbers, the zeros, the positive numbers, positive
    infinity; numbers of one sign by exponent, then by mantissa. *)
Definition sf_rank (a : spec_float) : Z * Z * Z :=
  match a with
  | S754_nan => (0, 0, 0)
  | S754_zero _ => (0, 0, 0)
  | S754_infinity true => (-2, 0, 0)
  | S754_infinity false => (2, 0, 0)
  | S754_finite true m e => (-1, - e, - Z.pos m)
  | S754_finite false m e => (1, e, Z.pos m)
  end.

Definition rank_lt (x y : Z * Z * Z) : Prop :=
  x.1.1 < y.1.1
  ∨ (x.1.1 = y.1.1 ∧ (x.1.2 < y.1.2 ∨ (x.1.2 = y.1.2 ∧ x.2 < y.2))).

(** A float that is nan, a zero, or has the positive sign. *)
Definition sf_not_negative (a : spec_float) : Prop :=
  match a with
  | S754_infinity true | S754_finite true _ _ => False
  | _ => True
  end.

Section Model.
Context {FL : Float32}.

(** An n-dimensional array: its shape and its elements in row-major order. *)
Record ndarray := mk_ndarray { shape : list nat; data : list F }.

(** [a > b] *)
Definition fgtb (a b : F) : bool := fltb b a.

(** [np.min] of the flattened array: a nan wins, an empty array raises. *)
Definition min_step (m y : F) : F :=
  if fisnan m then m else if fisnan y then y else if fltb y m then y else m.

Definition max_step (m y : F) : F :=
  if fisnan m then m else if fisnan y then y else if fltb m y then y else m.

Definition np_min (l : list F) : result F :=
  match l with
  | [] => Raise ValueError
  | x :: l' => Ok (fold_left min_step l' x)
  end.

Definition np_max (l : list F) : result F :=
  match l with
  | [] => Raise ValueError
  | x :: l' => Ok (fold_left max_step l' x)
  end.

(** [np.argmin(a, axis=None)]: the first index of the minimum (of the first
    nan, when there is one).  [best] is the index and value kept so far, [i]
    the index of the head of [l]. *)
Fixpoint argmin_go (l : list F) (i : nat) (best : nat * F) : nat :=
  match l with
  | [] => best.1
  | y :: l' =>
      argmin_go l' (S i)
        (if fisnan best.2 then best
         else if fisnan y then (i, y)
         else if fltb y best.2 then (i, y) else best)
  end.

Definition np_argmin (l : list F) : result nat :=
  match l with
  | [] => Raise ValueError
  | x :: l' => Ok (argmin_go l' 1%nat (0%nat, x))
  end.

(** [np.unravel_index(i, shape)] for an index inside the array. *)
Fixpoint unravel_index (i : nat) (shp : list nat) : list nat :=
  match shp with
  | [] => []
  | _ :: rest =>
      let stride := foldr Nat.mul 1%nat rest in
      (i / stride)%nat :: unravel_index (i mod stride)%nat rest
  end.

(** [a - x] and [a ** 2] with a scalar; [a + b] for arrays of one shape
    (numpy would broadcast other shapes or raise: here they raise). *)
Definition arr_sub_scalar (a : ndarray) (x : F) : ndarray :=
  mk_ndarray (shape a) (map (fun v => fsub v x) (data a)).

Definition arr_sq (a : ndarray) : ndarray :=
  mk_ndarray (shape a) (map fsq (data a)).

Definition arr_add (a b : ndarray) : result ndarray :=
  if bool_decide (shape a = shape b)
  then Ok (mk_ndarray (shape a) (zip_with fadd (data a) (data b)))
  else Raise ValueError.

(** [a[0, ...]] *)
Definition arr_first (a : ndarray) : result ndarray :=
  match shape a with
  | [] => Raise IndexError
  | O :: _ => Raise IndexError
  | S _ :: rest =>
      Ok (mk_ndarray rest (take (foldr Nat.mul 1%nat rest) (data a)))
  end.

(** ** The xarray dataset and the object's state *)

(** What [xr.open_mfdataset] gives: the variables by name, and the files it
    was opened from. *)
Record xr_dataset := mk_xr_dataset {
  xr_files : list string;
  xr_variables : gmap string ndarray
}.

Record NCARArray := mk_NCARArray {
  username : option string;
  password : option string;
  raw_files : list (string * string);
  dataset_init_dates : list datetime;
  dataset_variables : list string;
  _root_directory : string;
  member_coord : list Z;
  forecast_hour_coord : list Z;
  _ny : nat;
  _nx : nat;
  inverse_lat : bool;
  Dataset : option xr_dataset;
  _lat_array : option ndarray;
  _lon_array : option ndarray
}.

Definition set_raw_files (self : NCARArray) v :=
  mk_NCARArray (username self) (password self) v (dataset_init_dates self)
    (dataset_variables self) (_root_directory self) (member_coord self)
    (forecast_hour_coord self) (_ny self) (_nx self) (inverse_lat self)
    (Dataset self) (_lat_array self) (_lon_array self).

Definition set_dataset_init_dates (self : NCARArray) v :=
  mk_NCARArray (username self) (password self) (raw_files self) v
    (dataset_variables self) (_root_directory self) (member_coord self)
    (forecast_hour_coord self) (_ny self) (_nx self) (inverse_lat self)
    (Dataset self) (_lat_array self) (_lon_array self).

Definition set_dataset_variables (self : NCARArray) v :=
  mk_NCARArray (username self) (password self) (raw_files self)
    (dataset_init_dates self) v (_root_directory self) (member_coord self)
    (forecast_hour_coord self) (_ny self) (_nx self) (inverse_lat self)
    (Dataset self) (_lat_array self) (_lon_array self).

Definition set_member_coord_field (self : NCARArray) v :=
  mk_NCARArray (username self) (password self) (raw_files self)
    (dataset_init_dates self) (dataset_variables self) (_root_directory self)
    v (forecast_hour_coord self) (_ny self) (_nx self) (inverse_lat self)
    (Dataset self) (_lat_array self) (_lon_array self).

Definition set_forecast_hour_coord_field (self : NCARArray) v :=
  mk_NCARArray (username self) (password self) (raw_files self)
    (dataset_init_dates self) (dataset_variables self) (_root_directory self)
    (member_coord self) v (_ny self) (_nx self) (inverse_lat self)
    (Dataset self) (_lat_array self) (_lon_array self).

Definition set_Dataset (self : NCARArray) v :=
  mk_NCARArray (username self) (password self) (raw_files self)
    (dataset_init_dates self) (dataset_variables self) (_root_directory self)
    (member_coord self) (forecast_hour_coord self) (_ny self) (_nx self)
    (inverse_lat self) v (_lat_array self) (_lon_array self).

Definition set_lat_array (self : NCARArray) v :=
  mk_NCARArray (username self) (password self) (raw_files self)
    (dataset_init_dates self) (dataset_variables self) (_root_directory self)
    (member_coord self) (forecast_hour_coord self) (_ny self) (_nx self)
    (inverse_lat self) (Dataset self) v (_lon_array self).

Definition set_lon_array (self : NCARArray) v :=
  mk_NCARArray (username self) (password self) (raw_files self)
    (dataset_init_dates self) (dataset_variables self) (_root_directory self)
    (member_coord self) (forecast_hour_coord self) (_ny self) (_nx self)
    (inverse_lat self) (Dataset self) (_lat_array self) v.

(** [range(a, b)] *)
Definition range (a b : Z) : list Z :=
  map (fun i => a + Z.of_nat i) (seq 0 (Z.to_nat (b - a))).

(** [NCARArray.__init__]; [home] is [os.path.expanduser('~')]. *)
Definition __init__ (home : string) (root_directory username password : option string)
  : NCARArray :=
  mk_NCARArray username password [] [] []
    (match root_directory with
     | None => home +:+ "/.ncar"
     | Some d => d
     end)
    (range 1 11) (range 0 49) 985 1580 false None None None.

(** ** Files: GRIB, diagnostics, netCDF archives *)

(** A row of [ncar_grib1_table.csv] or [ncar_grib2_table.csv] as
    [np.genfromtxt(..., dtype='str', delimiter=',')] loads it: seven cells,
    [table[row, 0]] to [table[row, 6]]. *)
Record table_row := mk_row {
  cell0 : string; cell1 : string; cell2 : string; cell3 : string;
  cell4 : string; cell5 : string; cell6 : string
}.

(** The second key of a GRIB index: [parameterNumber] is an int,
    [indicatorOfTypeOfLevel] a string. *)
Inductive key2 :=
| KInt (z : Z)
| KStr (s : string).

#[global] Instance key2_eq_dec : EqDecision key2.
Proof. solve_decision. Defined.

Definition grib_key : Type := Z * key2 * Z.

(** A GRIB message: its index key, what reading [.values] gives, what
    [.latlon()] gives, and what the ['latitudes'] and ['longitudes'] keys
    give once reshaped to the shape of the values. *)
Record grib_message := mk_message {
  msg_key : grib_key;
  msg_values : result ndarray;
  msg_latlon : result (ndarray * ndarray);
  msg_latlon_keys : result (ndarray * ndarray)
}.

(** A GRIB file as [pygrib] shows it: its messages, in file order. *)
Record grib_file := mk_grib {
  gf_messages : list grib_message
}.

(** [grib_data[1]]: the first message; a file without messages has none
    ([pygrib] raises an [IOError]). *)
Definition first_message (g : grib_file) : result grib_message :=
  match gf_messages g with
  | m :: _ => Ok m
  | [] => Raise OSError
  end.

(** A variable of a diagnostics file; an attribute may be missing. *)
Record diags_variable := mk_diags_variable {
  dv_description : option string;
  dv_units : option string;
  dv_values : ndarray
}.

Definition diags_file : Type := list (string * diags_variable).

Inductive nc_attr :=
| AttrStr (s : string)
| AttrFill.                      (* the module's [fill_value] *)

Inductive nc_dtype := Float32T | Int32T.

Inductive nc_values :=
| NcUnset
| NcTimes (l : list datetime)    (* nc.date2num(dates, time_units) *)
| NcInts (l : list Z)
| NcGrid (a : ndarray)
| NcCube (slots : gmap (nat * nat) ndarray).
                                 (* [0, member_index, time_index, ...] *)

Record nc_variable := mk_nc_variable {
  nv_dtype : nc_dtype;
  nv_dims : list string;
  nv_atts : gmap string nc_attr;
  nv_values : nc_values
}.

Record nc_file := mk_nc_file {
  nc_description : option datetime;
  nc_dimensions : gmap string nat;
  nc_variables : gmap string nc_variable
}.

Definition nc_empty : nc_file := mk_nc_file None ∅ ∅.

Inductive content :=
| CGrib (g : grib_file)
| CDiags (d : diags_file)
| CNetCDF (n : nc_file)
| CGz (c : content)
| CBytes (b : string).

(** ** The world: file system and trace of effects *)

Inductive pyval :=
| VStr (s : string)
| VInt (z : Z)
| VDate (d : datetime)
| VInts (l : list Z)
| VStrs (l : list string)
| VExn (e : exn)
| VKey (k : grib_key).

(** [Printed fmt args] is [print(fmt % args)], the format string as in the
    source.  [NcAssign var mi ti] is the assignment
    [nc_fid.variables[var][0, mi, ti, ...] = data]; [NcAssignGrid var] the
    assignment of a whole coordinate grid. *)
Inductive event :=
| Printed (fmt : string) (args : list pyval)
| HttpPost (url : string)
| HttpGet (url : string)
| NcAssign (var : string) (member_index time_index : nat)
| NcAssignGrid (var : string)
| DatasetClose (files : list string).

Record world := mk_world {
  files : gmap string content;
  dirs : gset string;
  requests : nat;
  trace : list event
}.

Definition set_files (w : world) (f : gmap string content) : world :=
  mk_world f (dirs w) (requests w) (trace w).
Definition set_dirs (w : world) (d : gset string) : world :=
  mk_world (files w) d (requests w) (trace w).
Definition emit (w : world) (e : event) : world :=
  mk_world (files w) (dirs w) (requests w) (trace w ++ [e]).
Definition count_request (w : world) : world :=
  mk_world (files w) (dirs w) (S (requests w)) (trace w).

(** What the server does with the [n]-th [get] of a session. *)
Inductive response :=
| ResponseError (e : exn)                  (* [c.get] raises *)
| ResponseBody (c : content)               (* every chunk is written *)
| ResponseBroken (part : content) (e : exn). (* raises while writing chunks *)

Record network := mk_network {
  net_post : result string;
  net_get : nat → string → response
}.

(** ** Computations that change the world and may raise *)

Definition M (A : Type) : Type := world → result A * world.

Definition ret {A} (a : A) : M A := fun w => (Ok a, w).
Definition raise {A} (e : exn) : M A := fun w => (Raise e, w).
Definition bind {A B} (m : M A) (k : A → M B) : M B :=
  fun w => match m w with
           | (Ok a, w') => k a w'
           | (Raise e, w') => (Raise e, w')
           end.
Definition try_except {A} (m : M A) (handler : exn → M A) : M A :=
  fun w => match m w with
           | (Ok a, w') => (Ok a, w')
           | (Raise e, w') => handler e w'
           end.
Definition lift {A} (r : result A) : M A := fun w => (r, w).
Definition get_world : M world := fun w => (Ok w, w).

Notation "'let*' x ':=' m 'in' k" := (bind m (fun x => k))
  (at level 10, x pattern, m at level 100, k at level 200).
Notation "m '>>' k" := (bind m (fun _ => k))
  (at level 100, k at level 200, right associativity).

Definition when (b : bool) (m : M unit) : M unit :=
  if b then m else ret tt.

(** [for x in l: s = body x s] *)
Fixpoint for_fold {A S} (l : list A) (s : S) (body : A → S → M S) : M S :=
  match l with
  | [] => ret s
  | x :: l' => let* s' := body x s in for_fold l' s' body
  end.

Definition for_each {A} (l : list A) (body : A → M unit) : M unit :=
  for_fold l tt (fun x _ => body x).

(** Adds an event to the trace. *)
Definition record (e : event) : M unit := fun w => (Ok tt, emit w e).

Definition print (fmt : string) (args : list pyval) : M unit :=
  record (Printed fmt args).

(** [os.path.exists], [os.path.isfile], [os.remove], [os.makedirs] *)
Definition path_exists (w : world) (p : string) : bool :=
  bool_decide (is_Some (files w !! p)) || bool_decide (p ∈ dirs w).

Definition isfile (w : world) (p : string) : bool :=
  bool_decide (is_Some (files w !! p)).

Definition os_remove (p : string) : M unit :=
  fun w => if isfile w p then (Ok tt, set_files w (delete p (files w)))
           else (Raise OSError, w).

Definition makedirs (p : string) : M unit :=
  fun w => (Ok tt, set_dirs w ({[p]} ∪ dirs w)).

Definition _check_exists_path (w : world) (file_name : string)
  : bool * option string :=
  if path_exists w file_name then (true, Some file_name)
  else if path_exists w (file_name +:+ ".gz")
       then (true, Some (file_name +:+ ".gz"))
       else (false, None).

Definition _check_exists (w : world) (file_name : string) : bool :=
  (_check_exists_path w file_name).1.

(** [os.system('gunzip %s' % file_name)]: a gzip file is replaced by its
    content under the name without [.gz]; anything else is left alone. *)
Definition gunzip (file_name : string) : M unit :=
  fun w => match files w !! file_name with
           | Some (CGz c) =>
               let target :=
                 String.substring 0 (String.length file_name - 3) file_name in
               (Ok tt, set_files w (<[target := c]> (delete file_name (files w))))
           | _ => (Ok tt, w)
           end.

Definition _unzip (file_name : string) : M unit :=
  when (Str.endswith file_name ".gz")
       (print "  Unzipping..." [] >> gunzip file_name).

(** ** The spatial index *)

(** The [lat] property: the cached array, or the ['latitude'] variable of the
    open dataset (its first slice when it has more than two dimensions),
    which is then cached.  [Ok None] is the bare [return] after a
    [KeyError]. *)
Definition grid_property (cached : option ndarray) (name : string)
    (cache : NCARArray → option ndarray → NCARArray) (self : NCARArray)
  : result (option ndarray) * NCARArray :=
  match cached with
  | Some a => (Ok (Some a), self)
  | None =>
      match Dataset self with
      | None => (Raise AttributeError, self)
      | Some ds =>
          match xr_variables ds !! name with
          | None => (Ok None, self)
          | Some v =>
              if (2 <? List.length (shape v))%nat then
                match arr_first v with
                | Ok a => (Ok (Some a), cache self (Some a))
                | Raise e => (Raise e, self)
                end
              else (Ok (Some v), cache self (Some v))
          end
      end
  end.

Definition lat (self : NCARArray) : result (option ndarray) * NCARArray :=
  grid_property (_lat_array self) "latitude" set_lat_array self.

Definition lon (self : NCARArray) : result (option ndarray) * NCARArray :=
  grid_property (_lon_array self) "longitude" set_lon_array self.

(** [(self.lat - lat) ** 2 + (self.lon - lon) ** 2] *)
Definition squared_distance (la lo : ndarray) (lat_q lon_q : F)
  : result ndarray :=
  arr_add (arr_sq (arr_sub_scalar la lat_q)) (arr_sq (arr_sub_scalar lo lon_q)).

(** The part of [closest_lat_lon] after the two grids are read. *)
Definition closest_in (la lo : ndarray) (lat_q lon_q : F) : result (list nat) :=
  match squared_distance la lo lat_q lon_q with
  | Raise e => Raise e
  | Ok distance =>
      match np_min (data distance) with
      | Raise e => Raise e
      | Ok m =>
          if fgtb m f1 then Raise ValueError
          else match np_argmin (data distance) with
               | Raise e => Raise e
               | Ok i => Ok (unravel_index i (shape distance))
               end
      end
  end.

(** [lon += 360.] when [lon < 0.] *)
Definition normalize_lon (lon_q : F) : F :=
  if fltb lon_q f0 then fadd lon_q f360 else lon_q.

Definition closest_lat_lon (self : NCARArray) (lat_q lon_q : F)
  : result (list nat) * NCARArray :=
  let lon_q := normalize_lon lon_q in
  match lat self with
  | (Raise e, self) => (Raise e, self)
  | (Ok None, self) => (Raise TypeError, self)
  | (Ok (Some la), self) =>
      match lon self with
      | (Raise e, self) => (Raise e, self)
      | (Ok None, self) => (Raise TypeError, self)
      | (Ok (Some lo), self) => (closest_in la lo lat_q lon_q, self)
      end
  end.

(** [y, x = t]: unpacking a tuple that does not have two items raises. *)
Definition unpack2 (t : list nat) : result (nat * nat) :=
  match t with
  | [y; x] => Ok (y, x)
  | _ => Raise ValueError
  end.

Definition get_xy_bounds_from_latlon (self : NCARArray) (latlim lonlim : list F)
  : result ((nat * nat) * (nat * nat)) * NCARArray :=
  match np_min latlim, np_min lonlim with
  | Raise e, _ | Ok _, Raise e => (Raise e, self)
  | Ok lat1, Ok lon1 =>
      match closest_lat_lon self lat1 lon1 with
      | (Raise e, self) => (Raise e, self)
      | (Ok t1, self) =>
          match unpack2 t1 with
          | Raise e => (Raise e, self)
          | Ok (y1, x1) =>
              match np_max latlim, np_max lonlim with
              | Raise e, _ | Ok _, Raise e => (Raise e, self)
              | Ok lat2, Ok lon2 =>
                  match closest_lat_lon self lat2 lon2 with
                  | (Raise e, self) => (Raise e, self)
                  | (Ok t2, self) =>
                      match unpack2 t2 with
                      | Raise e => (Raise e, self)
                      | Ok (y2, x2) =>
                          if inverse_lat self
                          then (Ok ((y2, y1), (x1, x2)), self)
                          else (Ok ((y1, y2), (x1, x2)), self)
                      end
                  end
              end
          end
      end
  end.

(** ** Setters *)

Definition set_init_dates (self : NCARArray) (init_dates : list datetime)
  : NCARArray :=
  set_dataset_init_dates self init_dates.

(** [None] is the argument ['default']. *)
Definition set_forecast_hour_coord (self : NCARArray)
    (forecast_hour_coord : option (list Z)) : NCARArray :=
  match forecast_hour_coord with
  | None => set_forecast_hour_coord_field self (range 0 49)
  | Some l => set_forecast_hour_coord_field self l
  end.

Definition set_member_coord (self : NCARArray) (member_coord : option (list Z))
  : NCARArray :=
  match member_coord with
  | None => set_member_coord_field self (range 1 11)
  | Some l => set_member_coord_field self l
  end.

(** ** The dataset facade: [close] and [field] *)

Definition close (self : NCARArray) : M NCARArray :=
  match Dataset self with
  | Some ds =>
      record (DatasetClose (xr_files ds)) >>
      ret (set_lat_array (set_lon_array (set_Dataset self None) None) None)
  | None => raise ValueError
  end.

(** [l.index(x)] *)
Fixpoint list_index {A} `{EqDecision A} (x : A) (l : list A) : result nat :=
  match l with
  | [] => Raise ValueError
  | y :: l' =>
      if decide (x = y) then Ok 0%nat
      else match list_index x l' with
           | Ok i => Ok (S i)
           | Raise e => Raise e
           end
  end.

(** [a[i, ...]] *)
Definition arr_at (a : ndarray) (i : nat) : result ndarray :=
  match shape a with
  | [] => Raise IndexError
  | n :: rest =>
      if (i <? n)%nat then
        let stride := foldr Nat.mul 1%nat rest in
        Ok (mk_ndarray rest (take stride (drop (i * stride) (data a))))
      else Raise IndexError
  end.

Definition field (self : NCARArray) (variable : string) (init_date : datetime)
    (forecast_hour member : Z) : result ndarray :=
  match list_index init_date (dataset_init_dates self) with
  | Raise e => Raise e
  | Ok init_date_index =>
  match list_index forecast_hour (forecast_hour_coord self) with
  | Raise e => Raise e
  | Ok time_index =>
  match list_index member (member_coord self) with
  | Raise e => Raise e
  | Ok member_index =>
  match Dataset self with
  | None => Raise AttributeError
  | Some ds =>
  match xr_variables ds !! variable with
  | None => Raise KeyError
  | Some v =>
  match arr_at v init_date_index with
  | Raise e => Raise e
  | Ok v1 =>
  match arr_at v1 member_index with
  | Raise e => Raise e
  | Ok v2 => arr_at v2 time_index
  end end end end end end end.

(** ** [retrieve] *)

(** An argument that may be one value or a list or tuple of values, and one
    that may also be the string ['all']. *)
Inductive seq_arg (A : Type) :=
| One (a : A)
| Many (l : list A).
#[global] Arguments One {A} a.
#[global] Arguments Many {A} l.

Inductive all_arg (A : Type) :=
| All
| Given (s : seq_arg A).
#[global] Arguments All {A}.
#[global] Arguments Given {A} s.

Definition as_list {A} (s : seq_arg A) : list A :=
  match s with
  | One a => [a]
  | Many l => l
  end.

Definition login_url : string := "https://rda.ucar.edu/cgi-bin/login".
Definition data_url_root : string := "http://rda.ucar.edu/data/ds300.0".

Definition diags_name (init_date : datetime) (member forecast_hour : Z) : string :=
  Str.format (Datetime.strftime init_date diags_file_format)
             [member; forecast_hour].

Definition grib_name (init_date : datetime) (member forecast_hour : Z) : string :=
  Str.format (Datetime.strftime init_date grib_file_format)
             [member; forecast_hour].

(** The body of the innermost planning loop: the entries one forecast hour
    adds to [self.raw_files]. *)
Definition plan_hour (init_date : datetime) (get_ncar_netcdf : bool)
    (member forecast_hour : Z) (self : NCARArray) : M NCARArray :=
  if bool_decide (forecast_hour ∉ forecast_hour_coord self) then
    print "* Warning: I am only set up to retrieve forecast hours within %s"
          [VInts (forecast_hour_coord self)] >>
    ret self
  else
    let self :=
      if get_ncar_netcdf
      then set_raw_files self
             (raw_files self ++ [(diags_name init_date member forecast_hour, ".gz")])
      else self in
    let grib_file_name := grib_name init_date member forecast_hour in
    if init_date <dt data_grib1to2_date
    then ret (set_raw_files self (raw_files self ++ [(grib_file_name, ".gz")]))
    else ret (set_raw_files self (raw_files self ++ [(grib_file_name +:+ "2", "")])).

Definition plan_member (init_date : datetime) (forecast_hours : list Z)
    (get_ncar_netcdf : bool) (member : Z) (self : NCARArray) : M NCARArray :=
  if bool_decide (member ∉ member_coord self) then
    print "* Warning: I am only set up to retrieve members within %s"
          [VInts (member_coord self)] >>
    ret self
  else
    for_fold forecast_hours self (plan_hour init_date get_ncar_netcdf member).

Definition plan_date (forecast_hours members : list Z) (get_ncar_netcdf : bool)
    (init_date : datetime) (self : NCARArray) : M NCARArray :=
  if (init_date <dt data_start_date) || (init_date >dt data_end_date) then
    print "* Warning: doing nothing for init date %s, out of range (%s to %s)"
          [VDate init_date; VDate data_start_date; VDate data_end_date] >>
    ret self
  else
    let self :=
      if bool_decide (init_date ∉ dataset_init_dates self)
      then set_dataset_init_dates self (dataset_init_dates self ++ [init_date])
      else self in
    let init_date_dir :=
      Datetime.strftime init_date ((_root_directory self +:+ "/") +:+ "%Y/%Y%m%d/") in
    makedirs init_date_dir >>
    for_fold members self (plan_member init_date forecast_hours get_ncar_netcdf).

(** "Determine the files to retrieve": [self.raw_files] is reset and built. *)
Definition plan (self : NCARArray) (init_dates : list datetime)
    (forecast_hours members : list Z) (get_ncar_netcdf : bool) : M NCARArray :=
  for_fold init_dates (set_raw_files self [])
           (plan_date forecast_hours members get_ncar_netcdf).

(** [response = c.get(remote_file); with open(local_file, 'wb') as fd: ...] *)
Definition download (net : network) (remote_file local_file : string) : M unit :=
  fun w =>
    let w1 := emit (count_request w) (HttpGet remote_file) in
    match net_get net (requests w) remote_file with
    | ResponseError e => (Raise e, w1)
    | ResponseBody c => (Ok tt, set_files w1 (<[local_file := c]> (files w1)))
    | ResponseBroken c e =>
        (Raise e, set_files w1 (<[local_file := c]> (files w1)))
    end.

(** The body of the download loop for one entry of [self.raw_files].  (The
    source puts the reason between double quotes.) *)
Definition fetch_file (net : network) (root : string) (verbose : bool)
    (file_tuple : string * string) : M unit :=
  let local_file := (root +:+ "/") +:+ file_tuple.1 in
  let* w := get_world in
  if _check_exists w local_file then
    when verbose (print "local file %s exists; omitting" [VStr local_file])
  else
    let local_file := local_file +:+ file_tuple.2 in
    let remote_file :=
      (data_url_root +:+ "/") +:+ (file_tuple.1 +:+ file_tuple.2) in
    when verbose (print "downloading %s" [VStr remote_file]) >>
    try_except (download net remote_file local_file)
      (fun _ =>
         print "warning: failed to download %s, retrying" [VStr remote_file] >>
         try_except (download net remote_file local_file)
           (fun e =>
              print "warning: failed to download %s" [VStr remote_file] >>
              print Str.reason_format [VExn e])).

Definition fetch_files (net : network) (root : string) (verbose : bool)
    (files : list (string * string)) : M unit :=
  for_each files (fetch_file net root verbose).

Definition http_post (net : network) (url : string) : M string :=
  record (HttpPost url) >> lift (net_post net).

Definition retrieve (net : network) (self : NCARArray)
    (init_dates : all_arg datetime) (forecast_hours members : seq_arg Z)
    (get_ncar_netcdf verbose : bool) : M NCARArray :=
  let init_dates :=
    match init_dates with
    | All => dataset_init_dates self
    | Given s => as_list s
    end in
  let forecast_hours := as_list forecast_hours in
  let members := as_list members in
  when verbose (print "retrieve_ncar_data: beginning data retrieval" []) >>
  let* self := plan self init_dates forecast_hours members get_ncar_netcdf in
  when verbose (print "retrieve_ncar_data: logging in" []) >>
  let* post := http_post net login_url in
  when verbose (print "%s" [VStr post]) >>
  fetch_files net (_root_directory self) verbose (raw_files self) >>
  ret self.

(** ** [write] *)

(** The two parameter tables, which the module loads from csv files of the
    repository, and [date_to_file_date] of the package's [util] module. *)
Class Repo := {
  grib1_table : list table_row;
  grib2_table : list table_row;
  date_to_file_date : datetime → string
}.

Context {RT : Repo}.

Record write_flags := mk_flags {
  use_ncar_netcdf : bool;
  skip_grib : bool;
  write_into_existing : bool;
  omit_existing : bool;
  delete_raw_files : bool;
  verbose : bool
}.

(** [write(variables)] with every other parameter at its default. *)
Definition default_flags : write_flags :=
  mk_flags false false true false false false.

(** *** The netCDF4 calls on the archive being written *)

Definition createDimension (name : string) (size : nat) (nc : nc_file) : nc_file :=
  mk_nc_file (nc_description nc) (<[name := size]> (nc_dimensions nc))
             (nc_variables nc).

(** Creating a variable whose name is in use raises. *)
Definition createVariable (name : string) (dtype : nc_dtype)
    (dims : list string) (nc : nc_file) : result nc_file :=
  match nc_variables nc !! name with
  | Some _ => Raise RuntimeError
  | None =>
      Ok (mk_nc_file (nc_description nc) (nc_dimensions nc)
            (<[name := mk_nc_variable dtype dims ∅ NcUnset]> (nc_variables nc)))
  end.

Definition setncatts (name : string) (atts : list (string * nc_attr))
    (nc : nc_file) : nc_file :=
  mk_nc_file (nc_description nc) (nc_dimensions nc)
    (alter (fun v => mk_nc_variable (nv_dtype v) (nv_dims v)
                       (list_to_map atts ∪ nv_atts v) (nv_values v))
           name (nc_variables nc)).

(** [nc_fid.variables[name][:] = values] *)
Definition assign_all (name : string) (values : nc_values) (nc : nc_file)
  : result nc_file :=
  match nc_variables nc !! name with
  | None => Raise KeyError
  | Some v =>
      Ok (mk_nc_file (nc_description nc) (nc_dimensions nc)
            (<[name := mk_nc_variable (nv_dtype v) (nv_dims v) (nv_atts v) values]>
               (nc_variables nc)))
  end.

(** [nc_fid.variables[name][0, member_index, time_index, ...] = data]: the
    slot is overwritten; a variable that holds something else than slots
    cannot take one. *)
Definition assign_slot (name : string) (member_index time_index : nat)
    (values : ndarray) (nc : nc_file) : M nc_file :=
  match nc_variables nc !! name with
  | None => raise KeyError
  | Some v =>
      let store slots :=
        record (NcAssign name member_index time_index) >>
        ret (mk_nc_file (nc_description nc) (nc_dimensions nc)
               (<[name := mk_nc_variable (nv_dtype v) (nv_dims v) (nv_atts v)
                            (NcCube (<[(member_index, time_index) := values]> slots))]>
                  (nc_variables nc))) in
      match nv_values v with
      | NcUnset => store ∅
      | NcCube slots => store slots
      | _ => raise ValueError
      end
  end.

(** [nc.Dataset(file_name, mode, format='NETCDF4')] for writing: ['w']
    creates an empty file, ['a'] reads the one that is there. *)
Definition nc_open (file_name : string) (append : bool) : M nc_file :=
  fun w =>
    if append then
      match files w !! file_name with
      | Some (CNetCDF nc) => (Ok nc, w)
      | _ => (Raise OSError, w)
      end
    else (Ok nc_empty, set_files w (<[file_name := CNetCDF nc_empty]> (files w))).

(** [nc_fid.close()]: what was written is on disk. *)
Definition nc_close (file_name : string) (nc : nc_file) : M unit :=
  fun w => (Ok tt, set_files w (<[file_name := CNetCDF nc]> (files w))).

(** [pygrib.open(file_name)] and [nc.Dataset(file_name, 'r')] *)
Definition pygrib_open (file_name : string) : M grib_file :=
  fun w => match files w !! file_name with
           | Some (CGrib g) => (Ok g, w)
           | _ => (Raise OSError, w)
           end.

Definition diags_open (file_name : string) : M diags_file :=
  fun w => match files w !! file_name with
           | Some (CDiags d) => (Ok d, w)
           | _ => (Raise OSError, w)
           end.

Definition dims5 : list string :=
  ["time"; "member"; "fhour"; "south_north"; "west_east"].

(** [np.squeeze] *)
Definition squeeze (a : ndarray) : ndarray :=
  mk_ndarray (filter (fun n => n ≠ 1%nat) (shape a)) (data a).

(** [data[data > 1.e30] = np.nan] *)
Definition mask_missing (a : ndarray) : ndarray :=
  mk_ndarray (shape a) (map (fun v => if fgtb v f1e30 then fnan else v) (data a)).

(** *** The three readers nested in [write]

    They read [member], [forecast_hour] and [nc_fid] from the enclosing
    scope; here these are arguments, and the archive is returned. *)

Definition read_write_diags (self : NCARArray) (variables : list string)
    (flags : write_flags) (member forecast_hour : Z) (file_name : string)
    (nc_fid : nc_file) : M nc_file :=
  let* w := get_world in
  match _check_exists_path w file_name with
  | (true, Some exists_file_name) =>
      when (verbose flags) (print "Loading %s" [VStr exists_file_name]) >>
      _unzip exists_file_name >>
      when (verbose flags) (print "  Reading" []) >>
      let* member_index := lift (list_index member (member_coord self)) in
      let* time_index := lift (list_index forecast_hour (forecast_hour_coord self)) in
      let* diags_file := diags_open file_name in
      for_fold diags_file nc_fid (fun item nc_fid =>
        let var := if bool_decide (item.1 = "REFD_MAX") then "REFC" else item.1 in
        let variable := item.2 in
        if bool_decide (var ∈ variables) then
          let* nc_fid :=
            if bool_decide (is_Some (nc_variables nc_fid !! var)) then ret nc_fid
            else
              when (verbose flags) (print "Creating variable %s" [VStr var]) >>
              let* nc_fid := lift (createVariable var Float32T dims5 nc_fid) in
              let nc_fid := setncatts var [("_FillValue", AttrFill)] nc_fid in
              match dv_description variable, dv_units variable with
              | Some description, Some units =>
                  ret (setncatts var [("long_name", AttrStr description);
                                      ("units", AttrStr units)] nc_fid)
              | _, _ =>
                  when (verbose flags)
                       (print "Attributes for %s not specified in diags file"
                              [VStr var]) >>
                  ret nc_fid
              end in
          when (verbose flags) (print "Writing %s" [VStr var]) >>
          assign_slot var member_index time_index
                      (squeeze (dv_values variable)) nc_fid
        else ret nc_fid)
  | _ =>
      print "* Warning: file %s not found" [VStr file_name] >>
      ret nc_fid
  end.

Definition read_write_grib_lat_lon (flags : write_flags) (file_name : string)
    (nc_fid : nc_file) : M nc_file :=
  let* w := get_world in
  match _check_exists_path w file_name with
  | (true, Some exists_file_name) =>
      _unzip exists_file_name >>
      let* grib_data := pygrib_open file_name in
      let* latlon :=
        try_except
          (let* message := lift (first_message grib_data) in
           lift (msg_latlon message))
          (fun e =>
             if bool_decide (e = RuntimeError) then
               try_except
                 (let* message := lift (first_message grib_data) in
                  lift (msg_latlon_keys message))
                 (fun e' =>
                    print "* Warning: cannot get lat/lon from grib file %s"
                          [VStr exists_file_name] >>
                    raise e')
             else raise e) in
      when (verbose flags) (print "Writing latitude and longitude" []) >>
      let* nc_fid :=
        lift (createVariable "latitude" Float32T ["south_north"; "west_east"] nc_fid) in
      let nc_fid :=
        setncatts "latitude" [("long_name", AttrStr "Latitude");
                              ("units", AttrStr "degrees_north");
                              ("_FillValue", AttrFill)] nc_fid in
      let* nc_fid := lift (assign_all "latitude" (NcGrid latlon.1) nc_fid) in
      record (NcAssignGrid "latitude") >>
      let* nc_fid :=
        lift (createVariable "longitude" Float32T ["south_north"; "west_east"] nc_fid) in
      let nc_fid :=
        setncatts "longitude" [("long_name", AttrStr "Longitude");
                               ("units", AttrStr "degrees_east");
                               ("_FillValue", AttrFill)] nc_fid in
      let* nc_fid := lift (assign_all "longitude" (NcGrid latlon.2) nc_fid) in
      record (NcAssignGrid "longitude") >>
      ret nc_fid
  | _ => raise OSError
  end.

(** The keyword arguments of [grib_index.select] for a table row. *)
Definition select_key (is_grib2 : bool) (row : table_row) : result grib_key :=
  match Str.to_int (cell1 row) with
  | Raise e => Raise e
  | Ok k1 =>
      let second :=
        if is_grib2 then
          match Str.to_int (cell2 row) with
          | Ok k2 => Ok (KInt k2)
          | Raise e => Raise e
          end
        else Ok (KStr (cell2 row)) in
      match second with
      | Raise e => Raise e
      | Ok k2 =>
          match Str.to_int (cell3 row) with
          | Ok k3 => Ok (k1, k2, k3)
          | Raise e => Raise e
          end
      end
  end.

(** [grib_index.select(...)]: the messages with that key, in file order;
    none is an error. *)
Definition select (g : grib_file) (key : grib_key) : result (list grib_message) :=
  match filter (fun m => msg_key m = key) (gf_messages g) with
  | [] => Raise ValueError
  | l => Ok l
  end.

(** [grib_list[-1].values] *)
Definition last_values (grib_list : list grib_message) : result ndarray :=
  match last grib_list with
  | Some m => msg_values m
  | None => Raise IndexError
  end.

(** The [try] statement of [read_write_grib] for one table row. *)
Definition write_grib_variable (flags : write_flags) (file_name : string)
    (grib_data : grib_file) (is_grib2 : bool) (row : table_row)
    (member_index time_index : nat) (nc_fid : nc_file) : M nc_file :=
  let var := cell0 row in
  try_except
    (when (verbose flags) (print "Writing %s" [VStr var]) >>
     let* key := lift (select_key is_grib2 row) in
     let* grib_list := lift (select grib_data key) in
     when (verbose flags && (1 <? List.length grib_list)%nat)
          (print "* Warning: found multiple matches for %s; using the last (%s)"
                 [VStr var; VKey key]) >>
     let* values := lift (last_values grib_list) in
     assign_slot var member_index time_index (mask_missing values) nc_fid)
    (fun e =>
       if bool_decide (e = ValueError ∨ e = OSError) then
         print "* Warning: grib variable %s not found in file %s"
               [VStr var; VStr file_name] >>
         ret nc_fid
       else
         print "* Warning: failed to write %s to netCDF file ('%s')"
               [VStr var; VExn e] >>
         ret nc_fid).

Definition read_write_grib (self : NCARArray) (variables : list string)
    (flags : write_flags) (member forecast_hour : Z) (file_name : string)
    (is_grib2 : bool) (nc_fid : nc_file) : M nc_file :=
  let* w := get_world in
  match _check_exists_path w file_name with
  | (true, Some exists_file_name) =>
      when (verbose flags) (print "Loading %s" [VStr exists_file_name]) >>
      _unzip exists_file_name >>
      when (verbose flags) (print "  Reading" []) >>
      let* member_index := lift (list_index member (member_coord self)) in
      let* time_index := lift (list_index forecast_hour (forecast_hour_coord self)) in
      let* grib_data := pygrib_open file_name in
      let table := if is_grib2 then grib2_table else grib1_table in
      when (verbose flags) (print "Variables to fetch: %s" [VStrs variables]) >>
      for_fold table nc_fid (fun row nc_fid =>
        let var := cell0 row in
        if bool_decide (var ∈ variables) then
          let* nc_fid :=
            if bool_decide (is_Some (nc_variables nc_fid !! var)) then ret nc_fid
            else
              when (verbose flags) (print "Creating variable %s" [VStr var]) >>
              let* nc_fid := lift (createVariable var Float32T dims5 nc_fid) in
              ret (setncatts var [("long_name", AttrStr (cell5 row));
                                  ("units", AttrStr (cell6 row));
                                  ("_FillValue", AttrFill)] nc_fid) in
          write_grib_variable flags file_name grib_data is_grib2 row
                              member_index time_index nc_fid
        else ret nc_fid)
  | _ =>
      print "* Warning: file %s not found" [VStr file_name] >>
      ret nc_fid
  end.

(** *** The main loop *)

Definition nc_file_dir (self : NCARArray) : string :=
  _root_directory self +:+ "/processed".

Definition nc_file_name (self : NCARArray) (init_date : datetime) : string :=
  (nc_file_dir self +:+ "/") +:+ (date_to_file_date init_date +:+ ".nc").

(** "Initialize coordinates": the dimensions and the [time], [member] and
    [fhour] variables of a new archive. *)
Definition init_coordinates (self : NCARArray) (flags : write_flags)
    (init_date : datetime) (nc_fid : nc_file) : M nc_file :=
  when (verbose flags) (print "Creating coordinate dimensions" []) >>
  let nc_fid :=
    mk_nc_file (Some init_date) (nc_dimensions nc_fid) (nc_variables nc_fid) in
  let nc_fid := createDimension "time" 0 nc_fid in
  let nc_fid := createDimension "member" (List.length (member_coord self)) nc_fid in
  let nc_fid := createDimension "fhour" (List.length (forecast_hour_coord self)) nc_fid in
  let nc_fid := createDimension "south_north" (_ny self) nc_fid in
  let nc_fid := createDimension "west_east" (_nx self) nc_fid in
  let* nc_fid := lift (createVariable "time" Float32T ["time"] nc_fid) in
  let nc_fid :=
    setncatts "time" [("long_name", AttrStr "Model initialization time");
                      ("units", AttrStr "hours since 1970-01-01 00:00:00")] nc_fid in
  let* nc_fid := lift (assign_all "time" (NcTimes [init_date]) nc_fid) in
  let* nc_fid := lift (createVariable "member" Int32T ["member"] nc_fid) in
  let nc_fid :=
    setncatts "member" [("long_name", AttrStr "Ensemble member number identifier");
                        ("units", AttrStr "N/A")] nc_fid in
  let* nc_fid := lift (assign_all "member" (NcInts (member_coord self)) nc_fid) in
  let* nc_fid := lift (createVariable "fhour" Int32T ["fhour"] nc_fid) in
  let nc_fid :=
    setncatts "fhour" [("long_name", AttrStr "Forecast hour");
                       ("units", AttrStr "hours")] nc_fid in
  lift (assign_all "fhour" (NcInts (forecast_hour_coord self)) nc_fid).

(** The path of the GRIB file of a unit and whether it is a GRIB2 file. *)
Definition grib_file_of (self : NCARArray) (init_date : datetime)
    (member forecast_hour : Z) : string * bool :=
  let grib_file_name :=
    (_root_directory self +:+ "/") +:+ grib_name init_date member forecast_hour in
  if init_date >=dt data_grib1to2_date
  then (grib_file_name +:+ "2", true)
  else (grib_file_name, false).

Definition diags_file_of (self : NCARArray) (init_date : datetime)
    (member forecast_hour : Z) : string :=
  (_root_directory self +:+ "/") +:+ diags_name init_date member forecast_hour.

(** The body of the loop over forecast hours; the state is the archive and
    [init_coord]. *)
Definition write_hour (self : NCARArray) (variables : list string)
    (flags : write_flags) (init_date : datetime) (member forecast_hour : Z)
    (st : nc_file * bool) : M (nc_file * bool) :=
  if bool_decide (forecast_hour ∉ forecast_hour_coord self) then
    print "* Warning: I am only set up to retrieve forecast hours within %s"
          [VInts (forecast_hour_coord self)] >>
    ret st
  else
    let '(grib_file_name, grib2) := grib_file_of self init_date member forecast_hour in
    let* st :=
      if st.2 : bool then
        try_except
          (let* nc_fid := read_write_grib_lat_lon flags grib_file_name st.1 in
           ret (nc_fid, false))
          (fun e =>
             if bool_decide (e = OSError) then
               print "* Warning: file %s not found for coordinates; trying the next one."
                     [VStr grib_file_name] >>
               ret st
             else raise e)
      else ret st in
    let* nc_fid :=
      if skip_grib flags then ret st.1
      else read_write_grib self variables flags member forecast_hour
                           grib_file_name grib2 st.1 in
    let diags_file_name := diags_file_of self init_date member forecast_hour in
    let* nc_fid :=
      if use_ncar_netcdf flags
      then read_write_diags self variables flags member forecast_hour
                            diags_file_name nc_fid
      else ret nc_fid in
    when (delete_raw_files flags)
         (let* w := get_world in
          when (isfile w grib_file_name) (os_remove grib_file_name) >>
          let* w := get_world in
          when (use_ncar_netcdf flags && isfile w diags_file_name)
               (os_remove diags_file_name)) >>
    ret (nc_fid, st.2).

Definition write_member (self : NCARArray) (variables : list string)
    (flags : write_flags) (init_date : datetime) (forecast_hours : list Z)
    (member : Z) (st : nc_file * bool) : M (nc_file * bool) :=
  if bool_decide (member ∉ member_coord self) then
    print "* Warning: I am only set up to retrieve members within %s"
          [VInts (member_coord self)] >>
    ret st
  else
    for_fold forecast_hours st (write_hour self variables flags init_date member).

(** The body of the loop over init dates. *)
Definition write_date (self : NCARArray) (variables : list string)
    (flags : write_flags) (forecast_hours members : list Z)
    (init_date : datetime) : M unit :=
  makedirs (nc_file_dir self) >>
  let nc_file_name := nc_file_name self init_date in
  when (verbose flags) (print "Writing to file %s" [VStr nc_file_name]) >>
  let* w := get_world in
  if isfile w nc_file_name && omit_existing flags then
    when (verbose flags) (print "Omitting file %s; exists" [VStr nc_file_name])
  else
    let append := isfile w nc_file_name && write_into_existing flags in
    when (isfile w nc_file_name && negb (write_into_existing flags))
         (os_remove nc_file_name) >>
    let init_coord := negb append in
    let* nc_fid := nc_open nc_file_name append in
    let* nc_fid :=
      if init_coord then init_coordinates self flags init_date nc_fid
      else ret nc_fid in
    let* st :=
      for_fold members (nc_fid, init_coord)
               (write_member self variables flags init_date forecast_hours) in
    nc_close nc_file_name st.1 >>
    when st.2
         (when (verbose flags)
               (print "* Warning: failed to find any data for %s. Deleting the file."
                      [VDate init_date]) >>
          os_remove nc_file_name).

Definition write (self : NCARArray) (variables : list string)
    (init_dates : all_arg datetime) (forecast_hours members : all_arg Z)
    (flags : write_flags) : M NCARArray :=
  let init_dates :=
    match init_dates with
    | All => dataset_init_dates self
    | Given s => as_list s
    end in
  let forecast_hours :=
    match forecast_hours with
    | All => forecast_hour_coord self
    | Given s => as_list s
    end in
  let members :=
    match members with
    | All => member_coord self
    | Given s => as_list s
    end in
  if (List.length variables =? 0)%nat then
    print "NCARArray.write: no variables specified; will do nothing." [] >>
    ret self
  else
    let self := set_dataset_variables self variables in
    for_each init_dates (write_date self variables flags forecast_hours members) >>
    ret self.

(** ** [open]

    [xr.open_mfdataset] is xarray's: [open_mfdataset] stands for what it
    builds from the archives it is given. *)
Definition open (open_mfdataset : list nc_file → gmap string ndarray)
    (self : NCARArray) : M NCARArray :=
  match dataset_init_dates self with
  | [] => raise ValueError
  | _ =>
      let nc_files := map (nc_file_name self) (dataset_init_dates self) in
      let* w := get_world in
      let* archives :=
        for_fold nc_files ([] : list nc_file) (fun p acc =>
          match files w !! p with
          | Some (CNetCDF nc) => ret (acc ++ [nc])
          | _ => raise OSError
          end) in
      let ds := mk_xr_dataset nc_files (open_mfdataset archives) in
      let self := set_Dataset self (Some ds) in
      ret (set_dataset_variables self (map fst (map_to_list (xr_variables ds))))
  end.

End Model.

Notation "'let*' x ':=' m 'in' k" := (bind m (fun x => k))
  (at level 10, x pattern, m at level 100, k at level 200).
Notation "m '>>' k" := (bind m (fun _ => k))
  (at level 100, k at level 200, right associativity).

(** * What the planner is expected to list

    The entries of [raw_files] written as a function of the request, to be
    compared with what the loops of [plan] build. *)

Section Expected.
Context {FL : Float32}.

Definition out_of_range (init_date : datetime) : bool :=
  (init_date <dt data_start_date) || (init_date >dt data_end_date).

(** The entries of one (member, forecast hour) unit. *)
Definition unit_entries (get_ncar_netcdf : bool) (init_date : datetime)
    (member forecast_hour : Z) : list (string * string) :=
  (if get_ncar_netcdf
   then [(diags_name init_date member forecast_hour, ".gz")] else [])
  ++ (if init_date <dt data_grib1to2_date
      then [(grib_name init_date member forecast_hour, ".gz")]
      else [(grib_name init_date member forecast_hour +:+ "2", "")]).

Definition member_entries (self : NCARArray) (get_ncar_netcdf : bool)
    (init_date : datetime) (forecast_hours : list Z) (member : Z)
  : list (string * string) :=
  if bool_decide (member ∈ member_coord self) then
    flat_map (fun h => if bool_decide (h ∈ forecast_hour_coord self)
                       then unit_entries get_ncar_netcdf init_date member h
                       else [])
             forecast_hours
  else [].

Definition date_entries (self : NCARArray) (get_ncar_netcdf : bool)
    (forecast_hours members : list Z) (init_date : datetime)
  : list (string * string) :=
  if out_of_range init_date then []
  else flat_map (member_entries self get_ncar_netcdf init_date forecast_hours)
                members.

(** The init dates registered after a request: the valid ones, once each,
    after those already there. *)
Definition register_dates (known init_dates : list datetime) : list datetime :=
  fold_left (fun known d =>
               if out_of_range d then known
               else if bool_decide (d ∈ known) then known else known ++ [d])
            init_dates known.

(** The directories [plan] makes sure exist. *)
Definition date_dirs (self : NCARArray) (init_dates : list datetime)
  : gset string :=
  list_to_set
    (map (fun d => Datetime.strftime d ((_root_directory self +:+ "/") +:+ "%Y/%Y%m%d/"))
         (filter (fun d => out_of_range d = false) init_dates)).

(** What one pass of a planning loop does to the object. *)
Definition plan_hour_pure (get_ncar_netcdf : bool) (init_date : datetime)
    (member : Z) (self : NCARArray) (forecast_hour : Z) : NCARArray :=
  set_raw_files self
    (raw_files self ++
       (if bool_decide (forecast_hour ∈ forecast_hour_coord self)
        then unit_entries get_ncar_netcdf init_date member forecast_hour
        else [])).

Definition plan_member_pure (g : bool) (d : datetime) (hours : list Z)
    (self : NCARArray) (m : Z) : NCARArray :=
  set_raw_files self (raw_files self ++ member_entries self g d hours m).

Definition plan_date_pure (g : bool) (hours members : list Z)
    (self : NCARArray) (d : datetime) : NCARArray :=
  set_raw_files
    (set_dataset_init_dates self (register_dates (dataset_init_dates self) [d]))
    (raw_files self ++ date_entries self g hours members d).

(** The [print] of [plan] for an init date outside the window. *)
Definition out_of_range_warning (init_date : datetime) : event :=
  Printed "* Warning: doing nothing for init date %s, out of range (%s to %s)"
        [VDate init_date; VDate data_start_date; VDate data_end_date].

Definition is_print (e : event) : Prop :=
  match e with Printed _ _ => True | _ => False end.

(** The path [fetch_file] checks for an entry, and the url it asks for. *)
Definition local_path (root : string) (file_tuple : string * string) : string :=
  (root +:+ "/") +:+ file_tuple.1.

Definition remote_url (file_tuple : string * string) : string :=
  (data_url_root +:+ "/") +:+ (file_tuple.1 +:+ file_tuple.2).

Definition response_ok (r : response) : bool :=
  match r with ResponseBody _ => true | _ => false end.

(** What [fetch_file] adds to the trace for a file that is not there. *)
Definition download_events (net : network) (n : nat) (url : string) : list event :=
  HttpGet url ::
  match net_get net n url with
  | ResponseBody _ => []
  | _ =>
      [Printed "warning: failed to download %s, retrying" [VStr url]; HttpGet url]
      ++ match net_get net (S n) url with
         | ResponseBody _ => []
         | ResponseError e | ResponseBroken _ e =>
             [Printed "warning: failed to download %s" [VStr url];
              Printed Str.reason_format [VExn e]]
         end
  end.

(** The laws of float arithmetic the spatial index relies on.  They are
    laws of IEEE arithmetic (binary32 and binary64, rounding to nearest),
    infinities, signed zeros and nan included: [<] is false on nan and a
    strict weak order on the other values, an operation with a nan operand
    gives nan, a difference [a - a] is zero unless it is nan ([a] infinite),
    and a sum of two squares is never below zero.  Nothing is assumed
    closed: sums and squares may overflow, and differences may be nan.
    [ieee_laws] proves them of [IEEE prec emax], [zfloat_laws] of the
    whole-number readings. *)
Record FloatLaws : Prop := mk_laws {
  fltb_asym : ∀ a b, fltb a b = true → fltb b a = false;
  fltb_negtrans : ∀ a b c, fisnan b = false → fltb a c = true →
                  fltb a b = true ∨ fltb b c = true;
  fltb_not_nan : ∀ a b, fltb a b = true → fisnan a = false ∧ fisnan b = false;
  f0_not_nan : fisnan f0 = false;
  f1_not_nan : fisnan f1 = false;
  f0_not_gt_f1 : fltb f1 f0 = false;
  fadd_not_nan : ∀ a b, fisnan (fadd a b) = false →
                 fisnan a = false ∧ fisnan b = false;
  fsq_not_nan : ∀ a, fisnan (fsq a) = false → fisnan a = false;
  fsub_diag : ∀ a, fisnan (fsub a a) = false → fsub a a = f0;
  fsq_0 : fsq f0 = f0;
  fadd_0 : fadd f0 f0 = f0;
  fsq_sum_nonneg : ∀ a b, fltb (fadd (fsq a) (fsq b)) f0 = false
}.

(** The squared distance of a grid cell at ([a], [b]) to a query point. *)
Definition cell_distance (a b lat_q lon_q : F) : F :=
  fadd (fsq (fsub a lat_q)) (fsq (fsub b lon_q)).

(** A distance that is a number and compares equal to zero. *)
Definition zero_distance (d : F) : Prop :=
  fisnan d = false ∧ fltb d f0 = false ∧ fltb f0 d = false.

(** [steps R m]: running [m] takes a world to one related by [R], whether
    it returns or raises. *)
Definition steps (R : relation world) {A} (m : M A) : Prop :=
  ∀ w, R w (m w).2.

(** Only events that satisfy [P] are added to the trace. *)
Definition emits (P : event → Prop) : relation world :=
  fun w w' => ∃ evs, trace w' = trace w ++ evs ∧ Forall P evs.

(** No file is written or removed and no request is sent. *)
Definition same_files : relation world :=
  fun w w' => files w' = files w ∧ requests w' = requests w.

(** Nothing at all changes but the trace. *)
Definition same_disk : relation world :=
  fun w w' => files w' = files w ∧ dirs w' = dirs w ∧ requests w' = requests w.

(** Whatever exists goes on existing. *)
Definition keeps_paths : relation world :=
  fun w w' => (∀ p, is_Some (files w !! p) → is_Some (files w' !! p))
              ∧ dirs w ⊆ dirs w'.

(** The event that tells that [read_write_grib_lat_lon] wrote the grid, and
    what a run added to the trace. *)
Definition lon_event : event := NcAssignGrid "longitude".

Definition not_lon (e : event) : Prop := e ≠ lon_event.

Definition events_since (w w' : world) : list event :=
  drop (List.length (trace w)) (trace w').

(** How [init_coord] and the trace move together: the flag stays set only
    while the grid is not written, and drops only when it is. *)
Definition flag_follows (before : bool) (evs : list event) (after : bool) : Prop :=
  (after = true → before = true ∧ Forall not_lon evs)
  ∧ (after = false → before = false ∨ lon_event ∈ evs).

(** A computation that writes the grid when it returns, and not when it
    raises; and one whose returned flag follows the trace. *)
Definition grid_post {A} (m : M A) : Prop :=
  ∀ w, ∃ evs, trace (m w).2 = trace w ++ evs
              ∧ match (m w).1 with
                | Ok _ => lon_event ∈ evs
                | Raise _ => Forall not_lon evs
                end.

Definition flag_post (before : bool) (m : M (nc_file * bool)) : Prop :=
  ∀ w, ∃ evs, trace (m w).2 = trace w ++ evs
              ∧ match (m w).1 with
                | Ok st => flag_follows before evs st.2
                | Raise _ => True
                end.

(** The variables a run assigned a slot of, in order. *)
Definition variables_written (evs : list event) : list string :=
  omap (fun e => match e with NcAssign var _ _ => Some var | _ => None end) evs.

(** The field stored in an archive for a variable, member index and
    forecast-hour index; and the same for an archive on disk. *)
Definition nc_slot (nc : nc_file) (var : string)
    (member_index time_index : nat) : option ndarray :=
  match nc_variables nc !! var with
  | Some v =>
      match nv_values v with
      | NcCube slots => slots !! (member_index, time_index)
      | _ => None
      end
  | None => None
  end.

Definition archive_slot (w : world) (path var : string)
    (member_index time_index : nat) : option ndarray :=
  match files w !! path with
  | Some (CNetCDF nc) => nc_slot nc var member_index time_index
  | _ => None
  end.

(** The object [plan] returns for a request. *)
Definition planned (self : NCARArray) (dates : list datetime)
    (forecast_hours members : list Z) (get_ncar_netcdf : bool) : NCARArray :=
  set_raw_files
    (set_dataset_init_dates self (register_dates (dataset_init_dates self) dates))
    (flat_map (date_entries self get_ncar_netcdf forecast_hours members) dates).

(** The dates a request stands for. *)
Definition requested_dates (self : NCARArray) (init_dates : all_arg datetime)
  : list datetime :=
  match init_dates with
  | All => dataset_init_dates self
  | Given s => as_list s
  end.

(** A server that always sends something: no [get] raises before the file
    is opened. *)
Definition always_answers (net : network) : Prop :=
  ∀ n url, match net_get net n url with ResponseError _ => False | _ => True end.

(** The suffixes the planner uses. *)
Definition planner_suffix (file_tuple : string * string) : Prop :=
  file_tuple.2 = "" ∨ file_tuple.2 = ".gz".

(** A string that begins with a digit or a minus sign, as the names of the
    raw files do (they begin with the year). *)
Definition numeric_char (c : ascii) : Prop :=
  c = "-"%char ∨ is_Some (Str.digit_of c).

Definition starts_numeric (s : string) : Prop :=
  ∃ c t, s = String c t ∧ numeric_char c.

(** No GRIB file of the units of a run is on disk, as it is or compressed. *)
Definition no_grib_file (self : NCARArray) (init_date : datetime)
    (forecast_hours members : list Z) (w : world) : Prop :=
  ∀ m h, m ∈ members → h ∈ forecast_hours →
         _check_exists w (grib_file_of self init_date m h).1 = false.

End Expected.

(** * Concrete data

    A small world for the examples: whole-number grids, a table with one
    row per format, and the archive named after the init date. *)

Module Ex.

#[global] Instance repo : Repo := {|
  grib1_table := [mk_row "T2" "11" "sfc" "2" "" "2 m temperature" "K"];
  grib2_table := [mk_row "T2" "0" "0" "2" "" "2 m temperature" "K"];
  date_to_file_date := fun d => Datetime.strftime d "%Y%m%d%H"
|}.

Definition self : NCARArray :=
  __init__ "/home/user" (Some "/data") None None.

Definition empty_world : world := mk_world ∅ ∅ 0 [].

Definition june_2016 : datetime := date 2016 6 1.
Definition may_2015 : datetime := date 2015 5 1.
Definition january_2014 : datetime := date 2014 1 1.

(** A grid of two rows and two columns whose latitude decreases with the row
    index, as it does when the first row is the northern one. *)
Definition north_first_lat : ndarray :=
  mk_ndarray [2; 2]%nat [Fin 41; Fin 41; Fin 40; Fin 40].
Definition north_first_lon : ndarray :=
  mk_ndarray [2; 2]%nat [Fin 260; Fin 261; Fin 260; Fin 261].

Definition north_first : NCARArray :=
  set_Dataset self
    (Some (mk_xr_dataset ["/data/processed/2016060100.nc"]
             {["latitude" := north_first_lat; "longitude" := north_first_lon]})).

(** A grid of one cell that stores its longitude as a negative number. *)
Definition west_negative : NCARArray :=
  set_Dataset self
    (Some (mk_xr_dataset ["/data/processed/2016060100.nc"]
             {["latitude" := mk_ndarray [1; 1]%nat [Fin 40];
               "longitude" := mk_ndarray [1; 1]%nat [Fin (-100)]]})).

(** The same grid and object in binary32. *)
Definition west_negative_binary32 : @NCARArray Binary32 :=
  @set_Dataset Binary32
    (@__init__ Binary32 "/home/user" (Some "/data") None None)
    (Some (@mk_xr_dataset Binary32 ["/data/processed/2016060100.nc"]
             {["latitude" := @mk_ndarray Binary32 [1; 1]%nat [sf_of_Z 24 128 40];
               "longitude" :=
                 @mk_ndarray Binary32 [1; 1]%nat [sf_of_Z 24 128 (-100)]]})).

Definition field_280 : ndarray := mk_ndarray [1; 1]%nat [Fin 280].
Definition field_290 : ndarray := mk_ndarray [1; 1]%nat [Fin 290].
Definition grid_1x1 : ndarray * ndarray :=
  (mk_ndarray [1; 1]%nat [Fin 40], mk_ndarray [1; 1]%nat [Fin 260]).

(** A GRIB2 file whose only record is not the one of [T2] (its parameter
    number is 1, the table asks for 0), and one with two records for the
    key of [T2].  Every record carries the grid. *)
Definition grib_other_record : grib_file :=
  mk_grib [mk_message (0, KInt 1, 2) (Ok field_280) (Ok grid_1x1) (Ok grid_1x1)].

Definition grib_two_matches : grib_file :=
  mk_grib
    [mk_message (0, KInt 0, 2) (Ok field_280) (Ok grid_1x1) (Ok grid_1x1);
     mk_message (0, KInt 0, 2) (Ok field_290) (Ok grid_1x1) (Ok grid_1x1)].

Definition grib_path : string :=
  "/data/2016/20160601/ncar_3km_2016060100_mem1_f000.grb2".

Definition archive_path : string := "/data/processed/2016060100.nc".

Definition world_with (g : grib_file) : world :=
  mk_world {[grib_path := CGrib g]} ∅ 0 [].

(** A server that fails the first request and answers the others. *)
Definition flaky : network :=
  mk_network (Ok "ok")
    (fun n _ => if (n =? 0)%nat then ResponseError OSError
                else ResponseBody (CBytes "grib")).

(** A server that answers every request. *)
Definition steady : network :=
  mk_network (Ok "ok") (fun _ _ => ResponseBody (CBytes "grib")).

(** The object with one init date registered; the same with a dataset whose
    variable [T2] holds a field of one cell for that date, the ten members
    and the 49 forecast hours; and a world with the archive of that date. *)
Definition registered : NCARArray := set_dataset_init_dates self [june_2016].

Definition t2_cube : ndarray :=
  mk_ndarray [1; 10; 49; 1; 1]%nat
             (map (fun n => Fin (Z.of_nat n)) (seq 0 490)).

Definition opened : NCARArray :=
  set_Dataset registered
    (Some (mk_xr_dataset [archive_path] {["T2" := t2_cube]})).

Definition archive_world : world :=
  mk_world {[archive_path := CNetCDF nc_empty]} ∅ 0 [].

End Ex.

(** * Reasoning about computations

    For a preorder [R], [steps R] is kept by sequencing, handlers and
    loops. *)

Section Steps.
Context {FL : Float32} (R : relation world) `{!PreOrder R}.

Lemma steps_ret {A} (a : A) : steps R (ret a).
Proof. intros w. simpl. reflexivity. Qed.

Lemma steps_raise {A} (e : exn) : steps R (raise e : M A).
Proof. intros w. simpl. reflexivity. Qed.

Lemma steps_lift {A} (r : result A) : steps R (lift r).
Proof. intros w. simpl. reflexivity. Qed.

Lemma steps_get_world : steps R get_world.
Proof. intros w. simpl. reflexivity. Qed.

Lemma steps_bind {A B} (m : M A) (k : A → M B) :
  steps R m → (∀ a, steps R (k a)) → steps R (bind m k).
Proof.
  intros Hm Hk w. unfold bind. specialize (Hm w).
  destruct (m w) as [[a|e] w1]; simpl in *; [|done].
  etrans; [exact Hm|apply Hk].
Qed.

Lemma steps_try_except {A} (m : M A) (h : exn → M A) :
  steps R m → (∀ e, steps R (h e)) → steps R (try_except m h).
Proof.
  intros Hm Hh w. unfold try_except. specialize (Hm w).
  destruct (m w) as [[a|e] w1]; simpl in *; [done|].
  etrans; [exact Hm|apply Hh].
Qed.

Lemma steps_when (b : bool) (m : M unit) : steps R m → steps R (when b m).
Proof. destruct b; simpl; [done|]. intros _. apply steps_ret. Qed.

Lemma steps_for_fold {A S} (l : list A) (s : S) (body : A → S → M S) :
  (∀ x s, steps R (body x s)) → steps R (for_fold l s body).
Proof.
  intros Hb. revert s. induction l as [|x l IH]; intros s; simpl.
  - apply steps_ret.
  - apply steps_bind; [apply Hb|]. intros s'. apply IH.
Qed.

Lemma steps_for_each {A} (l : list A) (body : A → M unit) :
  (∀ x, steps R (body x)) → steps R (for_each l body).
Proof. intros Hb. apply steps_for_fold. intros x _. apply Hb. Qed.

End Steps.

(** Breaks a computation into its calls; what is left are the calls that
    touch the world. *)
Ltac steps_go :=
  repeat first
    [ apply steps_ret | apply steps_raise | apply steps_lift
    | apply steps_get_world
    | apply steps_bind; [..|intros ?]
    | apply steps_try_except; [..|intros ?]
    | apply steps_when
    | apply steps_for_fold; [..|intros ? ?]
    | apply steps_for_each; [..|intros ?]
    | match goal with
      | |- PreOrder _ => typeclasses eauto
      | |- steps _ (if ?b then _ else _) => destruct b
      | |- steps _ (match ?x with _ => _ end) => destruct x
      | |- steps _ (let '(_, _) := ?x in _) => destruct x
      end ].

Section Silent.
Context {FL : Float32}.

#[global] Instance emits_preorder P : PreOrder (emits P).
Proof.
  split.
  - intros w. exists []. by rewrite app_nil_r.
  - intros w1 w2 w3 (e1 & H1 & F1) (e2 & H2 & F2).
    exists (e1 ++ e2). rewrite H2, H1, app_assoc. split; [done|].
    by apply Forall_app.
Qed.

#[global] Instance same_files_preorder : PreOrder same_files.
Proof.
  split; [done|]. intros w1 w2 w3 [? ?] [? ?]. split; congruence.
Qed.

#[global] Instance same_disk_preorder : PreOrder same_disk.
Proof.
  split; [done|]. intros w1 w2 w3 (?&?&?) (?&?&?). repeat split; congruence.
Qed.

#[global] Instance keeps_paths_preorder : PreOrder keeps_paths.
Proof.
  split; [done|]. intros w1 w2 w3 [H1 D1] [H2 D2]. split; [auto|set_solver].
Qed.

Lemma emits_print P fmt args : P (Printed fmt args) → steps (emits P) (print fmt args).
Proof. intros HP w. exists [Printed fmt args]. split; [done|]. by constructor. Qed.

Lemma same_disk_print fmt args : steps same_disk (print fmt args).
Proof. by intros w. Qed.

Lemma same_files_print fmt args : steps same_files (print fmt args).
Proof. by intros w. Qed.

Lemma keeps_paths_print fmt args : steps keeps_paths (print fmt args).
Proof. by intros w. Qed.

Lemma emits_makedirs P p : steps (emits P) (makedirs p).
Proof. intros w. exists []. by rewrite app_nil_r. Qed.

Lemma same_files_makedirs p : steps same_files (makedirs p).
Proof. by intros w. Qed.

Lemma keeps_paths_makedirs p : steps keeps_paths (makedirs p).
Proof. intros w. split; [done|]. simpl. set_solver. Qed.

Lemma bind_Ok_inv {A B} (m : M A) (k : A → M B) w b w' :
  bind m k w = (Ok b, w') → ∃ a w1, m w = (Ok a, w1) ∧ k a w1 = (Ok b, w').
Proof.
  unfold bind. destruct (m w) as [[a|e] w1]; [eauto|done].
Qed.

Lemma emits_silent P {A} (m : M A) :
  (∀ w, trace (m w).2 = trace w) → steps (emits P) m.
Proof. intros H w. exists []. by rewrite app_nil_r. Qed.

Lemma emits_record P e : P e → steps (emits P) (record e).
Proof. intros HP w. exists [e]. split; [done|]. by constructor. Qed.

Lemma silent_os_remove p w : trace (os_remove p w).2 = trace w.
Proof. unfold os_remove. by destruct (isfile w p). Qed.

Lemma silent_gunzip p w : trace (gunzip p w).2 = trace w.
Proof. unfold gunzip. by repeat case_match. Qed.

Lemma silent_nc_open p a w : trace (nc_open p a w).2 = trace w.
Proof. unfold nc_open. by repeat case_match. Qed.

Lemma silent_nc_close p nc w : trace (nc_close p nc w).2 = trace w.
Proof. done. Qed.

Lemma silent_pygrib_open p w : trace (pygrib_open p w).2 = trace w.
Proof. unfold pygrib_open. by repeat case_match. Qed.

Lemma silent_diags_open p w : trace (diags_open p w).2 = trace w.
Proof. unfold diags_open. by repeat case_match. Qed.

Lemma silent_makedirs p w : trace (makedirs p w).2 = trace w.
Proof. done. Qed.

End Silent.

(** Closes the goals [steps_go] leaves, for a property of events that every
    event but the grid's has. *)
Ltac emits_go :=
  steps_go;
  first
    [ apply emits_print; done
    | apply emits_record; done
    | apply emits_silent; intros ?;
      first [ apply silent_os_remove | apply silent_gunzip | apply silent_nc_open
            | apply silent_nc_close | apply silent_pygrib_open
            | apply silent_diags_open | apply silent_makedirs ]
    | idtac ].

(** * Properties *)

Section Properties.
Context {FL : Float32} {RT : Repo}.

(** ** The facade: [close] *)

Lemma lat_no_dataset (self : NCARArray) :
  Dataset self = None → _lat_array self = None →
  lat self = (Raise AttributeError, self).
Proof. intros HD HL. unfold lat, grid_property. by rewrite HL, HD. Qed.

Lemma lon_no_dataset (self : NCARArray) :
  Dataset self = None → _lon_array self = None →
  lon self = (Raise AttributeError, self).
Proof. intros HD HL. unfold lon, grid_property. by rewrite HL, HD. Qed.

(** C9.  [close] on an open dataset calls the dataset's [close], sets
    [Dataset] to [None] and clears both cached grids, so that the next read
    of [lat] or [lon] fails instead of answering from the cache; every other
    attribute is kept.  With no dataset open it raises [ValueError] and
    changes nothing. *)
Theorem close_releases_dataset_and_clears_grid (self : NCARArray) (w : world) :
  match Dataset self with
  | Some ds =>
      ∃ self',
        close self w = (Ok self', emit w (DatasetClose (xr_files ds)))
        ∧ Dataset self' = None
        ∧ _lat_array self' = None
        ∧ _lon_array self' = None
        ∧ lat self' = (Raise AttributeError, self')
        ∧ lon self' = (Raise AttributeError, self')
        ∧ dataset_init_dates self' = dataset_init_dates self
        ∧ member_coord self' = member_coord self
        ∧ forecast_hour_coord self' = forecast_hour_coord self
  | None => close self w = (Raise ValueError, w)
  end.
Proof.
  unfold close. destruct (Dataset self) as [ds|] eqn:HD; [|done].
  eexists. split; [reflexivity|].
  repeat split; try reflexivity.
Qed.

(** ** [write] with nothing to write *)

(** C10.  [write] with an empty list of variables prints its notice and
    returns: no file and no directory is created, removed or changed, for
    any init dates, hours, members and flags, and the object is as before. *)
Theorem write_no_variables_changes_nothing (self : NCARArray)
    (init_dates : all_arg datetime) (forecast_hours members : all_arg Z)
    (flags : write_flags) (w : world) :
  ∃ w',
    write self [] init_dates forecast_hours members flags w = (Ok self, w')
    ∧ files w' = files w
    ∧ dirs w' = dirs w
    ∧ requests w' = requests w
    ∧ trace w' =
        trace w ++ [Printed "NCARArray.write: no variables specified; will do nothing." []].
Proof. eexists. split; [reflexivity|]. by repeat split. Qed.

(** ** The retrieval planner *)

Lemma set_raw_files_id (self : NCARArray) : set_raw_files self (raw_files self) = self.
Proof. by destruct self. Qed.

Lemma plan_hour_result g d m h self w :
  (plan_hour d g m h self w).1 = Ok (plan_hour_pure g d m self h).
Proof.
  unfold plan_hour, plan_hour_pure, unit_entries.
  destruct (decide (h ∈ forecast_hour_coord self)) as [Hin|Hin].
  - rewrite (bool_decide_eq_false_2 (h ∉ _)) by (intros ?; done).
    rewrite (bool_decide_eq_true_2 _ Hin).
    destruct g, (d <dt data_grib1to2_date); simpl;
      rewrite <-?app_assoc; reflexivity.
  - rewrite (bool_decide_eq_true_2 (h ∉ _)) by done.
    rewrite (bool_decide_eq_false_2 _ Hin). simpl.
    by rewrite app_nil_r, set_raw_files_id.
Qed.

Lemma plan_hour_steps R `{!PreOrder R} g d m h self :
  (∀ fmt args, steps R (print fmt args)) → steps R (plan_hour d g m h self).
Proof. intros HP. unfold plan_hour. steps_go; apply HP. Qed.

Lemma for_fold_pure {A S} (body : A → S → M S) (f : S → A → S) :
  (∀ x s w, (body x s w).1 = Ok (f s x)) →
  ∀ l s w, (for_fold l s body w).1 = Ok (fold_left f l s).
Proof.
  intros Hb. induction l as [|x l IH]; intros s w; simpl; [done|].
  unfold bind. specialize (Hb x s w).
  destruct (body x s w) as [[s'|e] w']; simpl in *; [|done].
  injection Hb as ->. apply IH.
Qed.

Lemma fold_plan_hour_pure g d m hours self :
  fold_left (plan_hour_pure g d m) hours self
  = set_raw_files self
      (raw_files self ++
         flat_map (fun h => if bool_decide (h ∈ forecast_hour_coord self)
                            then unit_entries g d m h else []) hours).
Proof.
  revert self. induction hours as [|h hours IH]; intros self; simpl.
  - by rewrite app_nil_r, set_raw_files_id.
  - rewrite IH. unfold plan_hour_pure. simpl. by rewrite <-app_assoc.
Qed.

Lemma plan_member_result g d hours m self w :
  (plan_member d hours g m self w).1 = Ok (plan_member_pure g d hours self m).
Proof.
  unfold plan_member, plan_member_pure, member_entries.
  destruct (decide (m ∈ member_coord self)) as [Hin|Hin].
  - rewrite (bool_decide_eq_false_2 (m ∉ _)) by (intros ?; done).
    rewrite (bool_decide_eq_true_2 _ Hin).
    rewrite (for_fold_pure _ (plan_hour_pure g d m))
      by (intros; apply plan_hour_result).
    by rewrite fold_plan_hour_pure.
  - rewrite (bool_decide_eq_true_2 (m ∉ _)) by done.
    rewrite (bool_decide_eq_false_2 _ Hin). simpl.
    by rewrite app_nil_r, set_raw_files_id.
Qed.

Lemma plan_member_steps R `{!PreOrder R} g d hours m self :
  (∀ fmt args, steps R (print fmt args)) → steps R (plan_member d hours g m self).
Proof.
  intros HP. unfold plan_member. steps_go; try apply HP.
  by apply plan_hour_steps.
Qed.

Lemma fold_plan_member_pure g d hours members self :
  fold_left (plan_member_pure g d hours) members self
  = set_raw_files self
      (raw_files self ++ flat_map (member_entries self g d hours) members).
Proof.
  revert self. induction members as [|m members IH]; intros self; simpl.
  - by rewrite app_nil_r, set_raw_files_id.
  - rewrite IH. unfold plan_member_pure. simpl. by rewrite <-app_assoc.
Qed.

Lemma set_dataset_init_dates_id (self : NCARArray) :
  set_dataset_init_dates self (dataset_init_dates self) = self.
Proof. by destruct self. Qed.

Lemma plan_date_result g hours members d self w :
  (plan_date hours members g d self w).1 = Ok (plan_date_pure g hours members self d).
Proof.
  unfold plan_date, plan_date_pure, date_entries, register_dates, out_of_range.
  simpl.
  destruct ((d <dt data_start_date) || (d >dt data_end_date)); simpl.
  - by rewrite app_nil_r, set_dataset_init_dates_id, set_raw_files_id.
  - unfold bind, makedirs.
    rewrite (for_fold_pure _ (plan_member_pure g d hours))
      by (intros; apply plan_member_result).
    rewrite fold_plan_member_pure.
    destruct (decide (d ∈ dataset_init_dates self)) as [Hin|Hin].
    + rewrite (bool_decide_eq_false_2 (d ∉ _)) by (intros ?; done).
      rewrite (bool_decide_eq_true_2 _ Hin).
      by rewrite set_dataset_init_dates_id.
    + rewrite (bool_decide_eq_true_2 (d ∉ _)) by done.
      by rewrite (bool_decide_eq_false_2 _ Hin).
Qed.

Lemma plan_date_steps R `{!PreOrder R} g hours members d self :
  (∀ fmt args, steps R (print fmt args)) → (∀ p, steps R (makedirs p)) →
  steps R (plan_date hours members g d self).
Proof.
  intros HP HM. unfold plan_date. steps_go; try apply HP; try apply HM.
  by apply plan_member_steps.
Qed.

Lemma fold_plan_date_pure g hours members dates self :
  fold_left (plan_date_pure g hours members) dates self
  = set_raw_files
      (set_dataset_init_dates self (register_dates (dataset_init_dates self) dates))
      (raw_files self ++ flat_map (date_entries self g hours members) dates).
Proof.
  revert self. induction dates as [|d dates IH]; intros self; simpl.
  - by rewrite app_nil_r, set_dataset_init_dates_id, set_raw_files_id.
  - rewrite IH. unfold plan_date_pure. simpl. by rewrite <-app_assoc.
Qed.

(** The loops of [plan] never raise, and list exactly the expected entries:
    the object they return has the expected [raw_files] and registered
    dates. *)
Lemma plan_result self dates hours members g w :
  (plan self dates hours members g w).1
  = Ok (set_raw_files
          (set_dataset_init_dates self
             (register_dates (dataset_init_dates self) dates))
          (flat_map (date_entries self g hours members) dates)).
Proof.
  unfold plan.
  rewrite (for_fold_pure _ (plan_date_pure g hours members))
    by (intros; apply plan_date_result).
  by rewrite fold_plan_date_pure.
Qed.

Lemma plan_steps R `{!PreOrder R} self dates hours members g :
  (∀ fmt args, steps R (print fmt args)) → (∀ p, steps R (makedirs p)) →
  steps R (plan self dates hours members g).
Proof.
  intros HP HM. unfold plan. apply steps_for_fold; [done|].
  intros d s. by apply plan_date_steps.
Qed.

Lemma for_fold_app {A S} (body : A → S → M S) (l1 l2 : list A) (s : S) (w : world) :
  for_fold (l1 ++ l2) s body w
  = bind (for_fold l1 s body) (fun s' => for_fold l2 s' body) w.
Proof.
  revert s w. induction l1 as [|x l1 IH]; intros s w; [reflexivity|].
  cbn [app for_fold]. unfold bind at 1 2 3.
  destruct (body x s w) as [[s'|e] w']; [|done].
  rewrite IH. reflexivity.
Qed.

Lemma out_of_range_entries self g hours members d :
  out_of_range d = true → date_entries self g hours members d = [].
Proof. intros H. unfold date_entries. by rewrite H. Qed.

Lemma register_dates_app known l1 l2 :
  register_dates known (l1 ++ l2) = register_dates (register_dates known l1) l2.
Proof. unfold register_dates. by rewrite fold_left_app. Qed.

Lemma register_dates_skip known l1 d l2 :
  out_of_range d = true →
  register_dates known (l1 ++ d :: l2) = register_dates known (l1 ++ l2).
Proof.
  intros H. unfold register_dates. rewrite !fold_left_app. simpl.
  by rewrite H.
Qed.

Lemma plan_date_root g hours members self d :
  _root_directory (plan_date_pure g hours members self d) = _root_directory self.
Proof. done. Qed.

Lemma plan_date_dirs g hours members d self w :
  dirs (plan_date hours members g d self w).2
  = if out_of_range d then dirs w
    else {[Datetime.strftime d ((_root_directory self +:+ "/") +:+ "%Y/%Y%m%d/")]}
         ∪ dirs w.
Proof.
  unfold plan_date, out_of_range.
  destruct ((d <dt data_start_date) || (d >dt data_end_date)) eqn:E; [done|].
  unfold bind at 1. simpl.
  set (s := if bool_decide (d ∉ dataset_init_dates self) then _ else _).
  set (w1 := set_dirs w _).
  assert (H : steps same_disk (for_fold members s (plan_member d hours g))).
  { apply steps_for_fold; [apply _|]. intros m s'.
    apply plan_member_steps; [apply _|]. apply same_disk_print. }
  destruct (H w1) as (_ & -> & _). subst w1 s.
  by destruct (bool_decide (d ∉ dataset_init_dates self)).
Qed.

Lemma plans_keep_root g hours members dates self :
  _root_directory (fold_left (plan_date_pure g hours members) dates self)
  = _root_directory self.
Proof. by rewrite fold_plan_date_pure. Qed.

Lemma for_fold_plan_date_dirs g hours members dates self w :
  dirs (for_fold dates self (plan_date hours members g) w).2
  = date_dirs self dates ∪ dirs w.
Proof.
  revert self w. induction dates as [|d dates IH]; intros self w; simpl.
  - unfold date_dirs. set_solver.
  - unfold bind. pose proof (plan_date_result g hours members d self w) as Hr.
    pose proof (plan_date_dirs g hours members d self w) as Hd.
    destruct (plan_date hours members g d self w) as [[s'|e] w']; simpl in *;
      [|done].
    injection Hr as ->. rewrite IH, Hd. unfold date_dirs.
    rewrite plan_date_root. simpl.
    rewrite filter_cons.
    destruct (out_of_range d) eqn:E.
    + by rewrite decide_False.
    + rewrite decide_True by done. simpl. set_solver.
Qed.

Lemma date_dirs_skip self l1 d l2 :
  out_of_range d = true → date_dirs self (l1 ++ d :: l2) = date_dirs self (l1 ++ l2).
Proof.
  intros H. unfold date_dirs. rewrite !filter_app, filter_cons.
  rewrite decide_False; [done|]. by rewrite H.
Qed.

Lemma plan_same_files self dates hours members g :
  steps same_files (plan self dates hours members g).
Proof.
  apply plan_steps; [apply _|..].
  - apply same_files_print.
  - apply same_files_makedirs.
Qed.

Lemma plan_prints_only self dates hours members g :
  steps (emits is_print) (plan self dates hours members g).
Proof.
  apply plan_steps; [apply _|..].
  - intros. by apply emits_print.
  - apply emits_makedirs.
Qed.

(** C5.  An init date outside the window adds no entry, and planning goes on
    with the dates after it: a request with such a date [d] in it is planned,
    without raising, exactly as the request without [d] (the same object,
    files and directories), and the warning for [d] is printed. *)
Theorem plan_skips_date_out_of_range (self : NCARArray)
    (dates1 : list datetime) (d : datetime) (dates2 : list datetime)
    (forecast_hours members : list Z) (get_ncar_netcdf : bool) (w : world) :
  out_of_range d = true →
  ∃ self' w1 w2,
    plan self (dates1 ++ d :: dates2) forecast_hours members get_ncar_netcdf w
      = (Ok self', w1)
    ∧ plan self (dates1 ++ dates2) forecast_hours members get_ncar_netcdf w
      = (Ok self', w2)
    ∧ date_entries self get_ncar_netcdf forecast_hours members d = []
    ∧ files w1 = files w2 ∧ dirs w1 = dirs w2 ∧ requests w1 = requests w2
    ∧ out_of_range_warning d ∈ trace w1.
Proof.
  intros Hd.
  pose proof (plan_result self (dates1 ++ d :: dates2) forecast_hours members
                get_ncar_netcdf w) as H1.
  pose proof (plan_result self (dates1 ++ dates2) forecast_hours members
                get_ncar_netcdf w) as H2.
  rewrite register_dates_skip in H1 by done.
  rewrite flat_map_app in H1. simpl in H1.
  rewrite (out_of_range_entries _ _ _ _ d Hd) in H1. simpl in H1.
  rewrite <-flat_map_app in H1.
  destruct (plan self (dates1 ++ d :: dates2) _ _ _ w) as [r1 w1] eqn:E1.
  destruct (plan self (dates1 ++ dates2) _ _ _ w) as [r2 w2] eqn:E2.
  simpl in H1, H2. subst r1 r2.
  eexists _, w1, w2. split; [reflexivity|]. split; [reflexivity|].
  split; [by apply out_of_range_entries|].
  pose proof (plan_same_files self (dates1 ++ d :: dates2) forecast_hours members
                get_ncar_netcdf w) as [Hf1 Hq1].
  pose proof (plan_same_files self (dates1 ++ dates2) forecast_hours members
                get_ncar_netcdf w) as [Hf2 Hq2].
  rewrite E1 in Hf1, Hq1. rewrite E2 in Hf2, Hq2. simpl in *.
  split; [congruence|].
  split.
  { pose proof (for_fold_plan_date_dirs get_ncar_netcdf forecast_hours members
                  (dates1 ++ d :: dates2) (set_raw_files self []) w) as D1.
    pose proof (for_fold_plan_date_dirs get_ncar_netcdf forecast_hours members
                  (dates1 ++ dates2) (set_raw_files self []) w) as D2.
    unfold plan in E1, E2. rewrite E1 in D1. rewrite E2 in D2. simpl in *.
    rewrite D1, D2. by rewrite date_dirs_skip. }
  split; [congruence|].
  unfold plan in E1. rewrite for_fold_app in E1. unfold bind in E1.
  destruct (for_fold dates1 _ _ w) as [[s1|e] wa]; [|done].
  simpl in E1. unfold bind at 1 in E1.
  unfold plan_date at 1 in E1. fold (out_of_range d) in E1. rewrite Hd in E1.
  unfold bind at 1 in E1. simpl in E1.
  assert (Hs : steps (emits is_print)
                 (for_fold dates2 s1 (plan_date forecast_hours members get_ncar_netcdf))).
  { apply steps_for_fold; [apply _|]. intros x s.
    apply plan_date_steps; [apply _|..].
    - intros. by apply emits_print.
    - apply emits_makedirs. }
  destruct (Hs (emit wa (out_of_range_warning d))) as (evs & Ht & _).
  unfold out_of_range_warning in *. rewrite E1 in Ht. simpl in Ht.
  rewrite Ht. apply elem_of_app. left. apply elem_of_app. right.
  apply list_elem_of_singleton. done.
Qed.

(** C2 (as the code has it).  For every request (any init dates, forecast
    hours and members) the planner never raises and lists, in the order of
    the request, for every init date inside the window, every member of the
    configured members and every forecast hour of the configured hours: the
    diagnostic netCDF file (suffix [.gz]) whenever [get_ncar_netcdf] is set,
    on either side of the cutover, and then the GRIB1 file (suffix [.gz])
    when the date precedes the cutover, the GRIB2 file (name ending in [2],
    no suffix) otherwise.  It lists nothing else. *)
Theorem plan_selects_format_by_cutover (self : NCARArray)
    (init_dates : list datetime) (forecast_hours members : list Z)
    (get_ncar_netcdf : bool) (w : world) :
  ∃ self' w',
    plan self init_dates forecast_hours members get_ncar_netcdf w = (Ok self', w')
    ∧ raw_files self' =
        flat_map (fun d =>
          if (d <dt data_start_date) || (d >dt data_end_date) then []
          else
            flat_map (fun m =>
              if bool_decide (m ∈ member_coord self) then
                flat_map (fun h =>
                  if bool_decide (h ∈ forecast_hour_coord self) then
                    (if get_ncar_netcdf
                     then [(diags_name d m h, ".gz")] else [])
                    ++ (if d <dt data_grib1to2_date
                        then [(grib_name d m h, ".gz")]
                        else [(grib_name d m h +:+ "2", "")])
                  else [])
                  forecast_hours
              else [])
              members)
          init_dates.
Proof.
  pose proof (plan_result self init_dates forecast_hours members
                get_ncar_netcdf w) as H.
  destruct (plan self init_dates forecast_hours members get_ncar_netcdf w)
    as [r w'].
  simpl in H. subst r. eexists _, w'. split; reflexivity.
Qed.

(** ** The download loop *)

Lemma fetch_file_ok net root verbose ft w :
  (fetch_file net root verbose ft w).1 = Ok tt.
Proof.
  unfold fetch_file, bind, get_world, try_except, download.
  destruct (_check_exists w _); [by destruct verbose|].
  destruct verbose; simpl;
    repeat (match goal with
            | |- context [net_get ?n ?k ?u] => destruct (net_get n k u)
            end; simpl); done.
Qed.

Lemma fetch_files_cons net root verbose ft rest w :
  fetch_files net root verbose (ft :: rest) w
  = fetch_files net root verbose rest (fetch_file net root verbose ft w).2.
Proof.
  unfold fetch_files, for_each. cbn [for_fold]. unfold bind at 1.
  pose proof (fetch_file_ok net root verbose ft w) as H.
  destruct (fetch_file net root verbose ft w) as [[[]|e] w']; simpl in *; done.
Qed.

Lemma fetch_files_ok net root verbose raw w :
  (fetch_files net root verbose raw w).1 = Ok tt.
Proof.
  revert w. induction raw as [|ft rest IH]; intros w; [done|].
  rewrite fetch_files_cons. apply IH.
Qed.

Lemma fetch_files_app net root verbose l1 l2 w :
  fetch_files net root verbose (l1 ++ l2) w
  = fetch_files net root verbose l2 (fetch_files net root verbose l1 w).2.
Proof.
  revert w. induction l1 as [|ft l1 IH]; intros w; [done|].
  simpl. rewrite !fetch_files_cons. apply IH.
Qed.

Lemma keeps_paths_download net remote local_file :
  steps keeps_paths (download net remote local_file).
Proof.
  intros w. unfold download.
  destruct (net_get net (requests w) remote); simpl; split; try done;
    intros p Hp; simpl; destruct (decide (local_file = p)) as [->|Hne];
    by rewrite ?lookup_insert_eq, ?lookup_insert_ne.
Qed.

Lemma fetch_file_keeps_paths net root verbose ft :
  steps keeps_paths (fetch_file net root verbose ft).
Proof.
  unfold fetch_file. steps_go;
    first [apply keeps_paths_print | apply keeps_paths_download].
Qed.

Lemma fetch_files_keeps_paths net root verbose raw :
  steps keeps_paths (fetch_files net root verbose raw).
Proof.
  apply steps_for_each; [apply _|]. intros ft. apply fetch_file_keeps_paths.
Qed.

Lemma check_exists_kept w w' p :
  keeps_paths w w' → _check_exists w p = true → _check_exists w' p = true.
Proof.
  intros [Hf Hd]. unfold _check_exists, _check_exists_path.
  assert (Hmono : ∀ q, path_exists w q = true → path_exists w' q = true).
  { intros q. unfold path_exists. rewrite !orb_true_iff, !bool_decide_eq_true.
    intros [?|?]; [left; auto|right; set_solver]. }
  destruct (path_exists w p) eqn:E1.
  - by rewrite (Hmono _ E1).
  - destruct (path_exists w (p +:+ ".gz")) eqn:E2; [|done].
    intros _. rewrite (Hmono _ E2). by destruct (path_exists w' p).
Qed.

Lemma fetch_file_present net root verbose ft w :
  _check_exists w (local_path root ft) = true →
  fetch_file net root verbose ft w
  = (Ok tt,
     if verbose
     then emit w (Printed "local file %s exists; omitting" [VStr (local_path root ft)])
     else w).
Proof.
  intros H. unfold fetch_file, bind, get_world. fold (local_path root ft).
  rewrite H. by destruct verbose.
Qed.

(** C6.  A planned file whose local path exists, as it is or with [.gz]
    added, is not downloaded: wherever it stands in the batch, its turn
    sends no request and writes no file (with [verbose] it prints that the
    file is omitted).  This holds from any world, so also for a second run
    from the world the first run left: what is present then is not fetched
    again. *)
Theorem retrieve_skips_files_present (net : network) (root : string)
    (verbose : bool) (before : list (string * string))
    (file_tuple : string * string) (w : world) :
  _check_exists w (local_path root file_tuple) = true →
  let w1 := (fetch_files net root verbose before w).2 in
  fetch_file net root verbose file_tuple w1
  = (Ok tt,
     if verbose
     then emit w1 (Printed "local file %s exists; omitting"
                         [VStr (local_path root file_tuple)])
     else w1).
Proof.
  intros H w1. apply fetch_file_present.
  eapply check_exists_kept; [|exact H].
  apply fetch_files_keeps_paths.
Qed.

(** C7.  A download that fails is tried again, once; when the second try
    fails too, the failure and its reason are printed.  In every case the
    turn of the file returns normally, so the loop goes on with the next
    file and never raises: one request for a file fetched at once, two for
    one whose first try failed, none for one that is present. *)
Theorem fetch_failure_retried_once_never_aborts (net : network) (root : string)
    (verbose : bool) (file_tuple : string * string)
    (rest : list (string * string)) (w : world) :
  let n := requests w in
  let url := remote_url file_tuple in
  let w' := (fetch_file net root verbose file_tuple w).2 in
  fetch_file net root verbose file_tuple w = (Ok tt, w')
  ∧ fetch_files net root verbose (file_tuple :: rest) w
    = fetch_files net root verbose rest w'
  ∧ (fetch_files net root verbose (file_tuple :: rest) w).1 = Ok tt
  ∧ requests w' =
      (if _check_exists w (local_path root file_tuple) then n
       else if response_ok (net_get net n url) then S n else S (S n))
  ∧ trace w' =
      trace w ++
      (if _check_exists w (local_path root file_tuple)
       then (if verbose
             then [Printed "local file %s exists; omitting"
                         [VStr (local_path root file_tuple)]]
             else [])
       else (if verbose then [Printed "downloading %s" [VStr url]] else [])
            ++ download_events net n url).
Proof.
  intros n url w'. subst w'.
  split.
  { pose proof (fetch_file_ok net root verbose file_tuple w).
    by destruct (fetch_file net root verbose file_tuple w) as [[[]|] ?]. }
  split; [apply fetch_files_cons|].
  split; [apply fetch_files_ok|].
  subst n url. unfold fetch_file, bind, get_world, try_except, download,
    download_events, remote_url, local_path.
  destruct (_check_exists w _).
  { destruct verbose; simpl; by rewrite ?app_nil_r. }
  destruct verbose; simpl;
    destruct (net_get net (requests w) _); simpl;
    try (destruct (net_get net (S (requests w)) _); simpl);
    rewrite <-?app_assoc; done.
Qed.

(** ** The spatial index *)

Section Spatial.
Context (L : FloatLaws).

Lemma fltb_irrefl a : fltb a a = false.
Proof.
  destruct (fltb a a) eqn:E; [|done].
  pose proof (fltb_asym L a a E). congruence.
Qed.

Lemma fle_trans a b c :
  fisnan b = false → fltb b a = false → fltb c b = false → fltb c a = false.
Proof.
  intros Hb Hab Hbc. destruct (fltb c a) eqn:Hca; [|done].
  destruct (fltb_negtrans L c b a Hb Hca); congruence.
Qed.

Lemma flt_le_trans a b c :
  fisnan c = false → fltb a b = true → fltb c b = false → fltb a c = true.
Proof.
  intros Hc Hab Hcb. destruct (fltb_negtrans L a c b Hc Hab); [done|congruence].
Qed.

Lemma fltb_trans a b c : fltb a b = true → fltb b c = true → fltb a c = true.
Proof.
  intros Hab Hbc. destruct (fltb_not_nan L b c Hbc) as [_ Hc].
  apply (flt_le_trans a b c); [done..|]. by apply (fltb_asym L).
Qed.

Lemma min_step_not_nan m y :
  fisnan m = false → fisnan y = false →
  min_step m y = if fltb y m then y else m.
Proof. intros Hm Hy. unfold min_step. by rewrite Hm, Hy. Qed.

(** Without a nan, [np.min] is a least element of the array. *)
Lemma fold_min_spec l x :
  fisnan x = false → Forall (fun a => fisnan a = false) l →
  let m := fold_left min_step l x in
  fisnan m = false ∧ m ∈ x :: l ∧ ∀ y, y ∈ x :: l → fltb y m = false.
Proof.
  revert x. induction l as [|y l IH]; intros x Hx Hl; simpl.
  - split; [done|]. split; [by left|].
    intros z Hz. apply list_elem_of_singleton in Hz as ->.
    apply fltb_irrefl.
  - apply Forall_cons in Hl as [Hy Hl].
    rewrite min_step_not_nan by done.
    set (x' := if fltb y x then y else x).
    assert (Hx' : fisnan x' = false) by (subst x'; by destruct (fltb y x)).
    destruct (IH x' Hx' Hl) as (Hm & Hin & Hmin).
    split; [done|]. split.
    { apply elem_of_cons in Hin as [Hin|Hin]; [|by do 2 right].
      rewrite Hin. subst x'. destruct (fltb y x); [right; by left|by left]. }
    assert (Hm' : fltb x' (fold_left min_step l x') = false) by (apply Hmin; by left).
    intros z Hz. apply elem_of_cons in Hz as [->|Hz].
    { apply (fle_trans _ x'); try done.
      subst x'. destruct (fltb y x) eqn:E.
      - by apply (fltb_asym L).
      - apply fltb_irrefl. }
    apply elem_of_cons in Hz as [->|Hz]; [|apply Hmin; by right].
    apply (fle_trans _ x'); try done.
    subst x'. destruct (fltb y x) eqn:E; [apply fltb_irrefl|done].
Qed.

(** With a nan, [np.min] is nan. *)
Lemma fold_min_nan l : ∀ x,
  fisnan x = true ∨ Exists (fun a => fisnan a = true) l →
  fisnan (fold_left min_step l x) = true.
Proof.
  induction l as [|y l IH]; intros x H; simpl.
  - destruct H as [H|H]; [done|]. by apply Exists_nil in H.
  - apply IH. unfold min_step.
    destruct (fisnan x) eqn:Ex; [by left|].
    destruct H as [H|H]; [done|].
    apply Exists_cons in H as [H|H]; [|by right].
    rewrite H. by left.
Qed.

(** Without a nan, [np.argmin] is the first index of a least element. *)
Lemma argmin_go_spec l : ∀ pre bi bv,
  Forall (fun a => fisnan a = false) (pre ++ l) →
  pre !! bi = Some bv →
  (∀ k y, pre !! k = Some y → fltb y bv = false) →
  (∀ k y, (k < bi)%nat → pre !! k = Some y → fltb bv y = true) →
  ∃ v, (pre ++ l) !! argmin_go l (List.length pre) (bi, bv) = Some v
       ∧ (∀ k y, (pre ++ l) !! k = Some y → fltb y v = false)
       ∧ (∀ k y, (k < argmin_go l (List.length pre) (bi, bv))%nat →
                 (pre ++ l) !! k = Some y → fltb v y = true).
Proof.
  induction l as [|y l IH]; intros pre bi bv Hok Hbi Hmin Hfirst.
  - simpl. rewrite app_nil_r. eauto.
  - assert (Hbv : fisnan bv = false).
    { eapply (Forall_forall (fun a => fisnan a = false)); [exact Hok|].
      apply elem_of_app. left. by eapply list_elem_of_lookup_2. }
    assert (Hy : fisnan y = false).
    { eapply (Forall_forall (fun a => fisnan a = false)); [exact Hok|].
      apply elem_of_app. right. by left. }
    assert (Hpre : ∀ k z, pre !! k = Some z → fisnan z = false).
    { intros k z Hz.
      eapply (Forall_forall (fun a => fisnan a = false)); [exact Hok|].
      apply elem_of_app. left. by eapply list_elem_of_lookup_2. }
    cbn [argmin_go fst snd].
    rewrite Hbv, Hy.
    replace (pre ++ y :: l) with ((pre ++ [y]) ++ l) in * by (by rewrite <-app_assoc).
    replace (S (List.length pre)) with (List.length (pre ++ [y]))
      by (rewrite length_app; simpl; lia).
    destruct (fltb y bv) eqn:E.
    + apply IH; [done|..].
      * by rewrite lookup_app_r, Nat.sub_diag.
      * intros k z Hz. apply lookup_app_Some in Hz as [Hz|[Hk Hz]].
        -- destruct (fltb z y) eqn:E2; [|done].
           pose proof (fltb_trans z y bv E2 E) as C.
           by rewrite (Hmin k z Hz) in C.
        -- apply list_lookup_singleton_Some in Hz as [_ <-].
           apply fltb_irrefl.
      * intros k z Hk Hz. rewrite lookup_app_l in Hz by done.
        apply (flt_le_trans y bv z); eauto.
    + apply IH; [done|..].
      * by apply lookup_app_l_Some.
      * intros k z Hz. apply lookup_app_Some in Hz as [Hz|[Hk Hz]]; [eauto|].
        by apply list_lookup_singleton_Some in Hz as [_ <-].
      * intros k z Hk Hz. apply lookup_app_Some in Hz as [Hz|[Hk' Hz]]; [eauto|].
        apply lookup_lt_Some in Hbi. lia.
Qed.

Lemma np_argmin_spec l :
  Forall (fun a => fisnan a = false) l → l ≠ [] →
  ∃ i v, np_argmin l = Ok i ∧ l !! i = Some v
         ∧ (∀ k y, l !! k = Some y → fltb y v = false)
         ∧ (∀ k y, (k < i)%nat → l !! k = Some y → fltb v y = true).
Proof.
  intros Hok Hne. destruct l as [|x l]; [done|]. simpl.
  destruct (argmin_go_spec l [x] 0%nat x) as (v & H1 & H2 & H3); try done.
  - intros k y Hk. apply list_lookup_singleton_Some in Hk as [_ <-].
    apply fltb_irrefl.
  - intros k y Hk. lia.
  - exists (argmin_go l 1 (0%nat, x)), v. eauto.
Qed.

Lemma np_min_spec l :
  Forall (fun a => fisnan a = false) l → l ≠ [] →
  ∃ m, np_min l = Ok m ∧ fisnan m = false ∧ m ∈ l
       ∧ ∀ y, y ∈ l → fltb y m = false.
Proof.
  intros Hok Hne. destruct l as [|x l]; [done|].
  apply Forall_cons in Hok as [Hx Hl].
  destruct (fold_min_spec l x Hx Hl) as (? & ? & ?).
  eexists. split; [reflexivity|]. done.
Qed.

Lemma np_min_nan l :
  Exists (fun a => fisnan a = true) l →
  ∃ m, np_min l = Ok m ∧ fisnan m = true.
Proof.
  intros H. destruct l as [|x l]; [by apply Exists_nil in H|].
  eexists. split; [reflexivity|]. apply fold_min_nan.
  apply Exists_cons in H as [H|H]; [by left|by right].
Qed.

End Spatial.

Lemma squared_distance_data la lo lat_q lon_q :
  shape la = shape lo →
  squared_distance la lo lat_q lon_q
  = Ok (mk_ndarray (shape la)
          (zip_with (fun a b => cell_distance a b lat_q lon_q) (data la) (data lo))).
Proof.
  intros Hs. unfold squared_distance, arr_add. simpl.
  rewrite bool_decide_eq_true_2 by done. do 2 f_equal.
  generalize (data lo). induction (data la) as [|a l IH]; intros [|b l']; simpl;
    try done. by rewrite IH.
Qed.

Lemma grid_property_keeps_flag cached name cache self r self' :
  (∀ s v, inverse_lat (cache s v) = inverse_lat s) →
  grid_property cached name cache self = (r, self') →
  inverse_lat self' = inverse_lat self.
Proof.
  intros Hc. unfold grid_property. intros H.
  repeat (match type of H with
          | context [match ?x with _ => _ end] => destruct x
          | context [if ?x then _ else _] => destruct x
          end);
    injection H as <- <-; by rewrite ?Hc.
Qed.

Lemma closest_lat_lon_keeps_flag self lat_q lon_q r self' :
  closest_lat_lon self lat_q lon_q = (r, self') →
  inverse_lat self' = inverse_lat self.
Proof.
  unfold closest_lat_lon. intros H.
  destruct (lat self) as [r1 s1] eqn:E1.
  apply grid_property_keeps_flag in E1; [|done].
  destruct r1 as [[la|]|e]; try (injection H as <- <-; done).
  destruct (lon s1) as [r2 s2] eqn:E2.
  apply grid_property_keeps_flag in E2; [|done].
  destruct r2 as [[lo|]|e]; injection H as <- <-; congruence.
Qed.

(** C3 (as the code has it).  The y pair is the row of the cell nearest to
    (min lat, min lon) and the row of the cell nearest to (max lat, max
    lon), in this order, exchanged when the [inverse_lat] attribute is set;
    the x pair is never exchanged.  So the y pair is low-to-high exactly
    when the attribute tells the truth about these two rows. *)
Theorem bounds_swap_follows_inverse_lat_flag (self self1 self2 : NCARArray)
    (latlim lonlim : list F) (lat1 lon1 lat2 lon2 : F) (y1 x1 y2 x2 : nat) :
  np_min latlim = Ok lat1 → np_min lonlim = Ok lon1 →
  np_max latlim = Ok lat2 → np_max lonlim = Ok lon2 →
  closest_lat_lon self lat1 lon1 = (Ok [y1; x1], self1) →
  closest_lat_lon self1 lat2 lon2 = (Ok [y2; x2], self2) →
  ∃ ya yb,
    get_xy_bounds_from_latlon self latlim lonlim = (Ok ((ya, yb), (x1, x2)), self2)
    ∧ (ya, yb) = (if inverse_lat self then (y2, y1) else (y1, y2))
    ∧ ((ya ≤ yb)%nat ↔ if inverse_lat self then (y2 ≤ y1)%nat else (y1 ≤ y2)%nat).
Proof.
  intros Hl1 Ho1 Hl2 Ho2 H1 H2.
  unfold get_xy_bounds_from_latlon.
  rewrite Hl1, Ho1, H1. simpl. rewrite Hl2, Ho2, H2. simpl.
  rewrite (closest_lat_lon_keeps_flag _ _ _ _ _ H2),
          (closest_lat_lon_keeps_flag _ _ _ _ _ H1).
  destruct (inverse_lat self); eexists _, _; (split; [reflexivity|]); done.
Qed.

(** ** Decoding GRIB records *)

Lemma select_snoc g key earlier m :
  filter (fun x => msg_key x = key) (gf_messages g) = earlier ++ [m] →
  select g key = Ok (earlier ++ [m]).
Proof. intros H. unfold select. rewrite H. by destruct earlier. Qed.

(** C4 (as the code has it).  When the records that match the key of a
    requested variable are [earlier ++ [m]], however many, the values of the
    last one, [m], with the out-of-range values masked, are written to the
    variable's slot, and the decode is not rejected.  The warning about
    several matches is printed only when there is more than one and
    [verbose] is set. *)
Theorem grib_last_match_written (flags : write_flags) (file_name : string)
    (grib_data : grib_file) (is_grib2 : bool) (row : table_row)
    (member_index time_index : nat) (nc_fid : nc_file) (w : world)
    (key : grib_key) (earlier : list grib_message) (m : grib_message)
    (values : ndarray) (v : nc_variable) :
  select_key is_grib2 row = Ok key →
  filter (fun x => msg_key x = key) (gf_messages grib_data) = earlier ++ [m] →
  msg_values m = Ok values →
  nc_variables nc_fid !! cell0 row = Some v →
  (nv_values v = NcUnset ∨ ∃ slots, nv_values v = NcCube slots) →
  ∃ nc_fid' w' v' slots',
    write_grib_variable flags file_name grib_data is_grib2 row
                        member_index time_index nc_fid w = (Ok nc_fid', w')
    ∧ nc_variables nc_fid' !! cell0 row = Some v'
    ∧ nv_values v' = NcCube slots'
    ∧ slots' !! (member_index, time_index) = Some (mask_missing values)
    ∧ trace w' =
        trace w
        ++ (if verbose flags then [Printed "Writing %s" [VStr (cell0 row)]] else [])
        ++ (if verbose flags && bool_decide (earlier ≠ [])
            then [Printed "* Warning: found multiple matches for %s; using the last (%s)"
                        [VStr (cell0 row); VKey key]]
            else [])
        ++ [NcAssign (cell0 row) member_index time_index].
Proof.
  intros Hkey Hsel Hval Hv Hcube.
  unfold write_grib_variable, try_except, bind at 1.
  assert (Hlen : (1 <? List.length (earlier ++ [m]))%nat = bool_decide (earlier ≠ [])).
  { rewrite length_app. destruct earlier as [|x l].
    - by rewrite bool_decide_eq_false_2 by (intros H; by apply H).
    - rewrite bool_decide_eq_true_2 by done. apply Nat.ltb_lt. simpl. lia. }
  assert (Hlast : last_values (earlier ++ [m]) = Ok values).
  { unfold last_values. by rewrite last_snoc. }
  unfold bind, lift, when, print, record, ret, assign_slot.
  rewrite Hkey, (select_snoc _ _ _ _ Hsel), Hlast, Hlen, Hv.
  destruct Hcube as [Hc|[slots Hc]]; rewrite Hc;
    destruct (verbose flags), (bool_decide (earlier ≠ [])); simpl;
    eexists _, _, _, _;
    (split; [reflexivity|]); simpl;
    rewrite lookup_insert_eq;
    (split; [reflexivity|]); simpl;
    (split; [reflexivity|]);
    rewrite lookup_insert_eq, <-?app_assoc; done.
Qed.

(** ** [write]: when the archive is kept *)

Lemma unzip_no_grid p : steps (emits not_lon) (_unzip p).
Proof. unfold _unzip. emits_go. Qed.

Lemma assign_slot_no_grid var mi ti values nc :
  steps (emits not_lon) (assign_slot var mi ti values nc).
Proof. unfold assign_slot. emits_go. Qed.

Lemma write_grib_variable_no_grid flags file_name g is_grib2 row mi ti nc :
  steps (emits not_lon) (write_grib_variable flags file_name g is_grib2 row mi ti nc).
Proof. unfold write_grib_variable. emits_go. apply assign_slot_no_grid. Qed.

Lemma read_write_grib_no_grid self variables flags member hour file_name is_grib2 nc :
  steps (emits not_lon)
        (read_write_grib self variables flags member hour file_name is_grib2 nc).
Proof.
  unfold read_write_grib. emits_go;
    first [apply unzip_no_grid | apply write_grib_variable_no_grid
          | apply assign_slot_no_grid].
Qed.

Lemma read_write_diags_no_grid self variables flags member hour file_name nc :
  steps (emits not_lon)
        (read_write_diags self variables flags member hour file_name nc).
Proof.
  unfold read_write_diags. emits_go;
    first [apply unzip_no_grid | apply assign_slot_no_grid].
Qed.

Lemma init_coordinates_no_grid self flags d nc :
  steps (emits not_lon) (init_coordinates self flags d nc).
Proof. unfold init_coordinates. emits_go. Qed.

Lemma grid_post_bind {A B} (m : M A) (k : A → M B) :
  steps (emits not_lon) m → (∀ a, grid_post (k a)) → grid_post (bind m k).
Proof.
  intros Hm Hk w. unfold bind. destruct (Hm w) as (e1 & H1 & F1).
  destruct (m w) as [[a|e] w1]; simpl in *.
  - destruct (Hk a w1) as (e2 & H2 & F2). exists (e1 ++ e2).
    rewrite H2, H1, app_assoc. split; [done|].
    destruct ((k a w1).1); [set_solver|]. by apply Forall_app.
  - by exists e1.
Qed.

Lemma grid_post_raise {A} e : grid_post (raise e : M A).
Proof. intros w. exists []. simpl. by rewrite app_nil_r. Qed.

Lemma grid_post_last {A} (a : A) : grid_post (record lon_event >> ret a).
Proof. intros w. exists [lon_event]. simpl. split; [done|]. set_solver. Qed.

Lemma read_write_grib_lat_lon_grid flags file_name nc :
  grid_post (read_write_grib_lat_lon flags file_name nc).
Proof.
  unfold read_write_grib_lat_lon.
  apply grid_post_bind; [emits_go|]. intros w0.
  destruct (_check_exists_path w0 file_name) as [[] [p|]];
    try apply grid_post_raise.
  repeat (apply grid_post_bind; [by emits_go|intros ?]).
  apply grid_post_last.
Qed.

Lemma flag_follows_refl b : flag_follows b [] b.
Proof. split; [by split|by left]. Qed.

Lemma flag_follows_trans b1 e1 b2 e2 b3 :
  flag_follows b1 e1 b2 → flag_follows b2 e2 b3 → flag_follows b1 (e1 ++ e2) b3.
Proof.
  intros [H1 H1'] [H2 H2']. split.
  - intros ->. destruct (H2 eq_refl) as [-> F2]. destruct (H1 eq_refl) as [-> F1].
    split; [done|]. by apply Forall_app.
  - intros ->. destruct (H2' eq_refl) as [->|Hin]; [|right; set_solver].
    destruct (H1' eq_refl) as [->|Hin]; [by left|right; set_solver].
Qed.

Lemma flag_follows_quiet b e : Forall not_lon e → flag_follows b e b.
Proof. intros F. split; [by split|by left]. Qed.

Lemma flag_post_ret st : flag_post st.2 (ret st).
Proof. intros w. exists []. simpl. rewrite app_nil_r. split; [done|apply flag_follows_refl]. Qed.

Lemma flag_post_bind b (m : M (nc_file * bool)) k :
  flag_post b m → (∀ st, flag_post st.2 (k st)) → flag_post b (bind m k).
Proof.
  intros Hm Hk w. unfold bind. destruct (Hm w) as (e1 & H1 & F1).
  destruct (m w) as [[st|e] w1]; simpl in *; [|by exists e1].
  destruct (Hk st w1) as (e2 & H2 & F2). exists (e1 ++ e2).
  rewrite H2, H1, app_assoc. split; [done|].
  destruct ((k st w1).1); [|done]. by eapply flag_follows_trans.
Qed.

Lemma flag_post_quiet_bind {A} b (m : M A) k :
  steps (emits not_lon) m → (∀ a, flag_post b (k a)) → flag_post b (bind m k).
Proof.
  intros Hm Hk w. unfold bind. destruct (Hm w) as (e1 & H1 & F1).
  destruct (m w) as [[a|e] w1]; simpl in *; [|by exists e1].
  destruct (Hk a w1) as (e2 & H2 & F2). exists (e1 ++ e2).
  rewrite H2, H1, app_assoc. split; [done|].
  destruct ((k a w1).1); [|done].
  eapply flag_follows_trans; [by apply flag_follows_quiet|done].
Qed.

Lemma flag_post_for_fold {A} (l : list A) body st :
  (∀ x st, flag_post st.2 (body x st)) → flag_post st.2 (for_fold l st body).
Proof.
  intros Hb. revert st. induction l as [|x l IH]; intros st; simpl.
  - apply flag_post_ret.
  - apply flag_post_bind; [apply Hb|apply IH].
Qed.

Lemma try_lat_lon_flag flags grib_file_name (st : nc_file * bool) :
  st.2 = true →
  flag_post st.2
    (try_except
       (let* nc_fid := read_write_grib_lat_lon flags grib_file_name st.1 in
        ret (nc_fid, false))
       (fun e =>
          if bool_decide (e = OSError) then
            print "* Warning: file %s not found for coordinates; trying the next one."
                  [VStr grib_file_name] >>
            ret st
          else raise e)).
Proof.
  intros Hst w. unfold try_except, bind.
  destruct (read_write_grib_lat_lon_grid flags grib_file_name st.1 w) as (evs & Ht & Hr).
  destruct (read_write_grib_lat_lon flags grib_file_name st.1 w) as [[nc|e] w1];
    simpl in *.
  - exists evs. split; [done|]. unfold flag_follows. simpl.
    split; [done|]. intros _. by right.
  - destruct (bool_decide (e = OSError)); simpl.
    + eexists (evs ++ [_]). rewrite Ht, app_assoc. split; [done|].
      apply flag_follows_quiet. apply Forall_app. split; [done|].
      by constructor.
    + by exists evs.
Qed.

Lemma write_hour_flag self variables flags d member hour st :
  flag_post st.2 (write_hour self variables flags d member hour st).
Proof.
  unfold write_hour.
  destruct (bool_decide (hour ∉ forecast_hour_coord self)).
  { apply flag_post_quiet_bind; [emits_go|]. intros _. apply flag_post_ret. }
  destruct (grib_file_of self d member hour) as [grib_file_name grib2].
  apply flag_post_bind.
  - destruct st as [nc b]. destruct b.
    + by apply (try_lat_lon_flag flags grib_file_name (nc, true)).
    + apply (flag_post_ret (nc, false)).
  - intros st1.
    apply flag_post_quiet_bind.
    { destruct (skip_grib flags); [emits_go|apply read_write_grib_no_grid]. }
    intros nc1. apply flag_post_quiet_bind.
    { destruct (use_ncar_netcdf flags); [apply read_write_diags_no_grid|emits_go]. }
    intros nc2. apply flag_post_quiet_bind; [emits_go|].
    intros _. apply (flag_post_ret (nc2, st1.2)).
Qed.

Lemma write_member_flag self variables flags d hours member st :
  flag_post st.2 (write_member self variables flags d hours member st).
Proof.
  unfold write_member.
  destruct (bool_decide (member ∉ member_coord self)).
  { apply flag_post_quiet_bind; [emits_go|]. intros _. apply flag_post_ret. }
  apply flag_post_for_fold. intros h st'. apply write_hour_flag.
Qed.

Lemma stage_emits {A} P (m : M A) w r w1 :
  steps (emits P) m → m w = (r, w1) →
  ∃ evs, trace w1 = trace w ++ evs ∧ Forall P evs.
Proof. intros Hm E. specialize (Hm w). by rewrite E in Hm. Qed.

Lemma events_since_app w w' evs :
  trace w' = trace w ++ evs → events_since w w' = evs.
Proof. intros H. unfold events_since. by rewrite H, drop_app_length. Qed.

Lemma not_lon_absent evs : Forall not_lon evs → lon_event ∉ evs.
Proof.
  intros F Hin. eapply Forall_forall in F; [|exact Hin]. by apply F.
Qed.

Lemma when_print_files b fmt args w r w1 :
  when b (print fmt args) w = (r, w1) →
  files w1 = files w ∧ r = Ok tt ∧ ∃ evs, trace w1 = trace w ++ evs ∧ Forall not_lon evs.
Proof.
  destruct b; simpl; intros [= <- <-]; (split; [done|]); (split; [done|]).
  - eexists [_]. split; [done|]. by constructor.
  - exists []. by rewrite app_nil_r.
Qed.

(** C1 (as the code has it).  After [write] has completed for a run: an
    archive that was there and is to be omitted is left alone; one that is
    appended to still exists; and one that is created anew (there was none,
    or it is overwritten) exists exactly when the grid coordinates were
    written into it from one of the run's GRIB files.  It is deleted when no
    GRIB file gave the coordinates, whatever variables were written. *)
Theorem archive_kept_iff_grid_written (self : NCARArray)
    (variables : list string) (flags : write_flags)
    (forecast_hours members : list Z) (init_date : datetime) (w w' : world) :
  write_date self variables flags forecast_hours members init_date w = (Ok tt, w') →
  let p := nc_file_name self init_date in
  if isfile w p && omit_existing flags then files w' = files w
  else if isfile w p && write_into_existing flags then is_Some (files w' !! p)
  else (is_Some (files w' !! p) ↔ lon_event ∈ events_since w w').
Proof.
  intros H p. unfold write_date in H. fold p in H.
  apply bind_Ok_inv in H as ([] & w1 & H1 & H). injection H1 as <-.
  apply bind_Ok_inv in H as ([] & w2 & H2 & H).
  apply when_print_files in H2 as (Hf2 & _ & e2 & Ht2 & F2). simpl in Hf2, Ht2.
  apply bind_Ok_inv in H as (w0 & w3 & H3 & H). injection H3 as <- <-.
  assert (Hisf : isfile w2 p = isfile w p) by (unfold isfile; by rewrite Hf2).
  rewrite Hisf in H.
  destruct (isfile w p && omit_existing flags) eqn:Eomit.
  { apply when_print_files in H as (Hf & _). congruence. }
  apply bind_Ok_inv in H as ([] & w4 & H4 & H).
  assert (T4 : ∃ e4, trace w4 = trace w2 ++ e4 ∧ Forall not_lon e4).
  { eapply (stage_emits _ _ _ _ _ _ H4). Unshelve. emits_go. }
  destruct T4 as (e4 & Ht4 & F4).
  apply bind_Ok_inv in H as (nc0 & w5 & H5 & H).
  assert (Ht5 : trace w5 = trace w4).
  { pose proof (silent_nc_open p (isfile w p && write_into_existing flags) w4) as S.
    by rewrite H5 in S. }
  apply bind_Ok_inv in H as (nc1 & w6 & H6 & H).
  assert (T6 : ∃ e6, trace w6 = trace w5 ++ e6 ∧ Forall not_lon e6).
  { eapply (stage_emits _ _ _ _ _ _ H6). Unshelve.
    destruct (negb (isfile w p && write_into_existing flags));
      [apply init_coordinates_no_grid|emits_go]. }
  destruct T6 as (e6 & Ht6 & F6).
  apply bind_Ok_inv in H as (st & w7 & H7 & H).
  pose proof (flag_post_for_fold members
                (write_member self variables flags init_date forecast_hours)
                (nc1, negb (isfile w p && write_into_existing flags))
                (fun x st => write_member_flag self variables flags init_date
                               forecast_hours x st) w6) as (e7 & Ht7 & Hflag).
  rewrite H7 in Ht7, Hflag. simpl in Ht7, Hflag.
  apply bind_Ok_inv in H as ([] & w8 & H8 & H). injection H8 as <-.
  assert (Hpost : ∃ e9, trace w' = trace w ++ ((e2 ++ e4 ++ e6) ++ e7 ++ e9)
                        ∧ Forall not_lon e9
                        ∧ files w' !! p = if st.2 then None else Some (CNetCDF st.1)).
  { destruct (st.2).
    - simpl in H. apply bind_Ok_inv in H as ([] & w9 & H9 & H).
      apply when_print_files in H9 as (Hf9 & _ & e9 & Ht9 & F9).
      unfold os_remove in H. destruct (isfile w9 p); [|done].
      injection H as <-. exists e9. simpl in *.
      rewrite Ht9, Ht7, Ht6, Ht5, Ht4, Ht2, <-!app_assoc.
      split; [done|]. split; [done|]. by rewrite lookup_delete_eq.
    - simpl in H. injection H as <-. exists []. simpl.
      rewrite Ht7, Ht6, Ht5, Ht4, Ht2, app_nil_r, <-!app_assoc.
      split; [done|]. split; [done|]. by rewrite lookup_insert_eq. }
  destruct Hpost as (e9 & Ht & F9 & Hfile).
  rewrite (events_since_app _ _ _ Ht), Hfile.
  assert (Hpre : Forall not_lon (e2 ++ e4 ++ e6)) by (by rewrite !Forall_app).
  destruct Hflag as [Hkeep Hdrop].
  destruct (isfile w p && write_into_existing flags) eqn:Eapp; simpl in *.
  - destruct (st.2); [|done]. by destruct (Hkeep eq_refl).
  - destruct (st.2).
    + destruct (Hkeep eq_refl) as [_ F7]. split; [by intros [? ?]|].
      intros Hin. exfalso.
      assert (Forall not_lon ((e2 ++ e4 ++ e6) ++ e7 ++ e9)) as Fall
        by (by rewrite !Forall_app in *).
      by apply (not_lon_absent _ Fall).
    + split; [|done]. intros _.
      destruct (Hdrop eq_refl) as [?|Hin]; [done|]. set_solver.
Qed.
End Properties.

(** * The properties on the concrete data *)

(** The whole-number readings satisfy the laws of float arithmetic. *)
Lemma zfloat_laws : @FloatLaws ZFloat.
Proof.
  split; try done.
  - intros [x|] [y|]; try done. simpl. rewrite Z.ltb_lt, Z.ltb_ge. lia.
  - intros [x|] [y|] [z|]; try done. simpl. rewrite !Z.ltb_lt. lia.
  - by intros [x|] [y|].
  - by intros [x|] [y|].
  - by intros [x|].
  - intros [x|] H; [|done]. simpl. by rewrite Z.sub_diag.
  - intros [x|] [y|]; try done. simpl. apply Z.ltb_ge. nia.
Qed.

(** IEEE arithmetic satisfies them too, in every format: overflow to an
    infinity, the nan of [inf - inf] and the signed zeros are all within
    the laws. *)
Lemma SFltb_rank a b :
  sf_is_nan a = false → sf_is_nan b = false →
  SFltb a b = true ↔ rank_lt (sf_rank a) (sf_rank b).
Proof.
  intros Ha Hb. unfold SFltb, SFcompare, rank_lt.
  destruct a as [[]|[]| |[] m1 e1], b as [[]|[]| |[] m2 e2]; simpl in *;
    try discriminate;
    try (split; [intros ?; lia|intros ?; (reflexivity || lia)]);
    try (split; [discriminate|intros ?; lia]);
    change (Pos.compare_cont Eq m1 m2) with (Pos.compare m1 m2);
    destruct (Z.compare_spec e1 e2); destruct (Pos.compare_spec m1 m2); simpl;
    split; intros ?; try reflexivity; try discriminate; lia.
Qed.

Lemma SFltb_nan a b :
  SFltb a b = true → sf_is_nan a = false ∧ sf_is_nan b = false.
Proof.
  unfold SFltb, SFcompare.
  destruct a as [[]|[]| |[] m1 e1], b as [[]|[]| |[] m2 e2]; simpl; done.
Qed.

Section Rounding.
Variables prec emax : Z.

Lemma binary_round_aux_sign mx ex lx :
  sf_not_negative (binary_round_aux prec emax false mx ex lx).
Proof.
  unfold binary_round_aux.
  destruct (shr_fexp prec emax mx ex lx) as [mrs' e'].
  destruct (shr_fexp prec emax _ e' loc_Exact) as [mrs'' e''].
  destruct (shr_m mrs''); [done| |done].
  by destruct (e'' <=? emax - prec).
Qed.

Lemma binary_round_sign mx ex :
  sf_not_negative (binary_round prec emax false mx ex).
Proof.
  unfold binary_round. destruct (shl_align _ _ _). apply binary_round_aux_sign.
Qed.

Lemma SFmul_square_sign a : sf_not_negative (SFmul prec emax a a).
Proof.
  destruct a as [s|s| |s m e]; simpl; try done.
  - by destruct s.
  - rewrite xorb_nilpotent. apply binary_round_aux_sign.
Qed.

Lemma SFadd_sign a b :
  sf_not_negative a → sf_not_negative b → sf_not_negative (SFadd prec emax a b).
Proof.
  destruct a as [[]|[]| |[] m1 e1], b as [[]|[]| |[] m2 e2]; simpl; try done.
  intros _ _. apply binary_round_sign.
Qed.

Lemma sf_not_negative_zero a s :
  sf_not_negative a → SFltb a (S754_zero s) = false.
Proof. by destruct a as [[]|[]| |[] m1 e1]. Qed.

Lemma SFsub_diag a :
  sf_is_nan (SFsub prec emax a a) = false →
  SFsub prec emax a a = S754_zero false.
Proof.
  destruct a as [[]|[]| |s m e]; simpl; try done.
  by rewrite Z.sub_diag.
Qed.

Lemma ieee_laws :
  sf_is_nan (sf_of_Z prec emax 1) = false → @FloatLaws (IEEE prec emax).
Proof.
  intros H1. split; simpl.
  - intros a b H. destruct (SFltb_nan a b H) as [Ha Hb].
    apply (SFltb_rank a b Ha Hb) in H.
    destruct (SFltb b a) eqn:E; [|done].
    apply (SFltb_rank b a Hb Ha) in E. unfold rank_lt in *. lia.
  - intros a b c Hb H. destruct (SFltb_nan a c H) as [Ha Hc].
    apply (SFltb_rank a c Ha Hc) in H.
    rewrite (SFltb_rank a b Ha Hb), (SFltb_rank b c Hb Hc).
    unfold rank_lt in *. lia.
  - apply SFltb_nan.
  - done.
  - done.
  - apply sf_not_negative_zero, binary_round_sign.
  - intros a b. by destruct a as [[]|[]| |[] m1 e1], b as [[]|[]| |[] m2 e2].
  - intros a. by destruct a as [[]|[]| |[] m1 e1].
  - apply SFsub_diag.
  - done.
  - done.
  - intros a b. apply sf_not_negative_zero, SFadd_sign; apply SFmul_square_sign.
Qed.

End Rounding.

Lemma binary32_laws : @FloatLaws Binary32.
Proof. apply ieee_laws. reflexivity. Qed.

Lemma binary64_laws : @FloatLaws Binary64.
Proof. apply ieee_laws. reflexivity. Qed.

(** C1, a run that writes no variable and keeps its archive: the GRIB file
    of the only unit is there and its first record gives the grid, but it
    holds no record for the requested [T2]. *)
Lemma archive_without_variables_is_kept :
  let w := Ex.world_with Ex.grib_other_record in
  let r := write Ex.self ["T2"] (Given (One Ex.june_2016)) (Given (One 0))
                 (Given (One 1)) default_flags w in
  is_ok r.1 = true
  ∧ variables_written (events_since w r.2) = []
  ∧ nc_file_name Ex.self Ex.june_2016 = Ex.archive_path
  ∧ isfile r.2 Ex.archive_path = true.
Proof. vm_compute. done. Qed.

Lemma archive_kept_iff_grid_written_witness :
  let w := Ex.world_with Ex.grib_other_record in
  let w' := (write_date Ex.self ["T2"] default_flags [0] [1] Ex.june_2016 w).2 in
  write_date Ex.self ["T2"] default_flags [0] [1] Ex.june_2016 w = (Ok tt, w')
  ∧ (is_Some (files w' !! Ex.archive_path) ↔ lon_event ∈ events_since w w').
Proof.
  intros w w'.
  assert (H : write_date Ex.self ["T2"] default_flags [0] [1] Ex.june_2016 w
              = (Ok tt, w')) by (vm_compute; reflexivity).
  split; [exact H|].
  exact (archive_kept_iff_grid_written Ex.self ["T2"] default_flags [0] [1]
           Ex.june_2016 w w' H).
Defined.

(** C2, a request on the GRIB2 side of the cutover with [get_ncar_netcdf]
    set: the diagnostic file is planned as well. *)
Lemma diagnostics_planned_after_cutover :
  (Ex.june_2016 >=dt data_grib1to2_date) = true
  ∧ ∃ self',
      (plan Ex.self [Ex.june_2016] [0] [1] true Ex.empty_world).1 = Ok self'
      ∧ raw_files self'
        = [("2016/20160601/diags_d02_2016060100_mem_1_f000.nc", ".gz");
           ("2016/20160601/ncar_3km_2016060100_mem1_f000.grb2", "")].
Proof. split; [reflexivity|]. eexists. split; vm_compute; reflexivity. Qed.

(** C3, a grid whose first row is the northern one, with [inverse_lat] left
    at its default: the y pair comes back high-to-low. *)
Lemma bounds_high_to_low_on_north_first_grid :
  inverse_lat Ex.north_first = false
  ∧ (get_xy_bounds_from_latlon Ex.north_first
       [Fin 40; Fin 41] [Fin 260; Fin 261]).1
    = Ok ((1, 0)%nat, (0, 1)%nat)
  ∧ ¬ (1 ≤ 0)%nat.
Proof. split; [reflexivity|]. split; [vm_compute; reflexivity|lia]. Qed.

Lemma bounds_swap_follows_inverse_lat_flag_witness :
  ∃ self2 ya yb,
    get_xy_bounds_from_latlon Ex.north_first [Fin 40; Fin 41] [Fin 260; Fin 261]
      = (Ok ((ya, yb), (0, 1)%nat), self2)
    ∧ (ya, yb) = (1, 0)%nat.
Proof.
  set (s1 := (closest_lat_lon Ex.north_first (Fin 40) (Fin 260)).2).
  set (s2 := (closest_lat_lon s1 (Fin 41) (Fin 261)).2).
  destruct (bounds_swap_follows_inverse_lat_flag Ex.north_first s1 s2
              [Fin 40; Fin 41] [Fin 260; Fin 261]
              (Fin 40) (Fin 260) (Fin 41) (Fin 261) 1 0 0 1)
    as (ya & yb & H & Hp & _); try (vm_compute; reflexivity).
  exists s2, ya, yb. split; [exact H|exact Hp].
Defined.

(** C4, a GRIB file with two records for [T2], read with [verbose] off (the
    default): the last record is written and nothing is printed. *)
Lemma two_matches_without_warning :
  let w := Ex.world_with Ex.grib_two_matches in
  let r := write Ex.self ["T2"] (Given (One Ex.june_2016)) (Given (One 0))
                 (Given (One 1)) default_flags w in
  verbose default_flags = false
  ∧ List.length (filter (fun m => msg_key m = (0, KInt 0, 2))
                        (gf_messages Ex.grib_two_matches)) = 2%nat
  ∧ is_ok r.1 = true
  ∧ trace r.2
    = [NcAssignGrid "latitude"; NcAssignGrid "longitude"; NcAssign "T2" 0 0]
  ∧ archive_slot r.2 Ex.archive_path "T2" 0 0 = Some Ex.field_290.
Proof. repeat split; vm_compute; reflexivity. Qed.

Lemma grib_last_match_written_witness :
  ∃ nc v,
    createVariable "T2" Float32T dims5 nc_empty = Ok nc
    ∧ nc_variables nc !! "T2" = Some v
    ∧ ∃ nc' w' v' slots',
        write_grib_variable (mk_flags false false true false false true)
          Ex.grib_path Ex.grib_two_matches true
          (mk_row "T2" "0" "0" "2" "" "2 m temperature" "K") 0 0 nc
          Ex.empty_world = (Ok nc', w')
        ∧ nc_variables nc' !! "T2" = Some v'
        ∧ nv_values v' = NcCube slots'
        ∧ slots' !! (0, 0)%nat = Some (mask_missing Ex.field_290)
        ∧ List.length (trace w') = 3%nat.
Proof.
  eexists _, _. split; [reflexivity|]. split; [vm_compute; reflexivity|].
  destruct (grib_last_match_written (mk_flags false false true false false true)
              Ex.grib_path Ex.grib_two_matches true
              (mk_row "T2" "0" "0" "2" "" "2 m temperature" "K") 0 0
              (mk_nc_file None ∅ {["T2" := mk_nc_variable Float32T dims5 ∅ NcUnset]})
              Ex.empty_world (0, KInt 0, 2)
              [mk_message (0, KInt 0, 2) (Ok Ex.field_280) (Ok Ex.grid_1x1)
                          (Ok Ex.grid_1x1)]
              (mk_message (0, KInt 0, 2) (Ok Ex.field_290) (Ok Ex.grid_1x1)
                          (Ok Ex.grid_1x1))
              Ex.field_290 (mk_nc_variable Float32T dims5 ∅ NcUnset))
    as (nc' & w' & v' & slots' & H1 & H2 & H3 & H4 & H5);
    try (vm_compute; reflexivity); [by left|].
  exists nc', w', v', slots'.
  split; [exact H1|]. split; [exact H2|]. split; [exact H3|]. split; [exact H4|].
  rewrite H5. reflexivity.
Defined.

Lemma plan_skips_date_out_of_range_witness :
  out_of_range Ex.january_2014 = true
  ∧ ∃ self' w1 w2,
      plan Ex.self [Ex.june_2016; Ex.january_2014; Ex.may_2015] [0] [1] false
           Ex.empty_world = (Ok self', w1)
      ∧ plan Ex.self [Ex.june_2016; Ex.may_2015] [0] [1] false Ex.empty_world
        = (Ok self', w2)
      ∧ out_of_range_warning Ex.january_2014 ∈ trace w1.
Proof.
  assert (H : out_of_range Ex.january_2014 = true) by reflexivity.
  split; [exact H|].
  destruct (plan_skips_date_out_of_range Ex.self [Ex.june_2016] Ex.january_2014
              [Ex.may_2015] [0] [1] false Ex.empty_world H)
    as (self' & w1 & w2 & H1 & H2 & _ & _ & _ & _ & H3).
  exists self', w1, w2. split; [exact H1|]. split; [exact H2|exact H3].
Defined.

(** A world where the GRIB2 file of the first unit is already there. *)
Lemma retrieve_skips_files_present_witness :
  let w := Ex.world_with Ex.grib_two_matches in
  let ft := ("2016/20160601/ncar_3km_2016060100_mem1_f000.grb2", "") in
  let before := [("2015/20150501/ncar_3km_2015050100_mem1_f000.grb", ".gz")] in
  _check_exists w (local_path "/data" ft) = true
  ∧ fetch_file Ex.flaky "/data" false ft
               (fetch_files Ex.flaky "/data" false before w).2
    = (Ok tt, (fetch_files Ex.flaky "/data" false before w).2).
Proof.
  intros w ft before.
  assert (H : _check_exists w (local_path "/data" ft) = true)
    by (vm_compute; reflexivity).
  split; [exact H|].
  exact (retrieve_skips_files_present Ex.flaky "/data" false before ft w H).
Defined.

(** C8, a grid that stores a western longitude as a negative number: the
    query with the very coordinates of its cell is moved by 360 degrees and
    found out of the domain. *)
Lemma exact_cell_with_negative_longitude_raises :
  (∃ ds la lo,
      Dataset Ex.west_negative = Some ds
      ∧ xr_variables ds !! "latitude" = Some la
      ∧ xr_variables ds !! "longitude" = Some lo
      ∧ data la !! 0%nat = Some (Fin 40)
      ∧ data lo !! 0%nat = Some (Fin (-100)))
  ∧ (closest_lat_lon Ex.west_negative (Fin 40) (Fin (-100))).1 = Raise ValueError.
Proof.
  split; [|vm_compute; reflexivity].
  eexists _, _, _. split; [reflexivity|].
  split; [vm_compute; reflexivity|]. split; [vm_compute; reflexivity|].
  split; reflexivity.
Qed.

(** The same in binary32 arithmetic: the distance found is 129600. *)
Lemma exact_cell_with_negative_longitude_raises_binary32 :
  (@closest_lat_lon Binary32 Ex.west_negative_binary32
     (sf_of_Z 24 128 40) (sf_of_Z 24 128 (-100))).1 = Raise ValueError
  ∧ @cell_distance Binary32 (sf_of_Z 24 128 40) (sf_of_Z 24 128 (-100))
      (sf_of_Z 24 128 40) (@normalize_lon Binary32 (sf_of_Z 24 128 (-100)))
    = sf_of_Z 24 128 129600.
Proof. split; vm_compute; reflexivity. Qed.

(** * Further properties of the code *)

Section Retrieval.
Context {FL : Float32}.




Lemma register_dates_spec dates : ∀ known,
  ∃ added,
    register_dates known dates = known ++ added
    ∧ (NoDup known → NoDup (known ++ added))
    ∧ (∀ d, d ∈ added → d ∈ dates ∧ out_of_range d = false ∧ d ∉ known)
    ∧ (∀ d, d ∈ dates → out_of_range d = false → d ∈ known ++ added).
Proof.
  induction dates as [|d dates IH]; intros known.
  - exists []. rewrite app_nil_r. repeat split; try done; set_solver.
  - unfold register_dates. simpl. fold (register_dates
      (if out_of_range d then known
       else if bool_decide (d ∈ known) then known else known ++ [d]) dates).
    destruct (out_of_range d) eqn:Ed.
    { destruct (IH known) as (added & -> & Hnd & Hin & Hall).
      exists added. repeat split; try done.
      - destruct (Hin d0 H) as (? & ? & ?). set_solver.
      - by apply Hin.
      - by apply Hin.
      - intros d' Hd' Hr. apply elem_of_cons in Hd' as [->|Hd']; [congruence|].
        by apply Hall. }
    destruct (decide (d ∈ known)) as [Hk|Hk].
    { rewrite (bool_decide_eq_true_2 _ Hk).
      destruct (IH known) as (added & -> & Hnd & Hin & Hall).
      exists added. repeat split; try done.
      - destruct (Hin d0 H) as (? & ? & ?). set_solver.
      - by apply Hin.
      - by apply Hin.
      - intros d' Hd' Hr. apply elem_of_cons in Hd' as [->|Hd']; [set_solver|].
        by apply Hall. }
    rewrite (bool_decide_eq_false_2 _ Hk).
    destruct (IH (known ++ [d])) as (added & -> & Hnd & Hin & Hall).
    exists (d :: added). rewrite <-app_assoc. simpl.
    split; [done|]. split.
    { intros Hn. rewrite <-app_assoc in Hnd. apply Hnd.
      apply NoDup_app. split; [done|]. split; [|apply NoDup_singleton].
      intros x Hx Hx'. apply list_elem_of_singleton in Hx'. by subst. }
    split.
    + intros d' Hd'. apply elem_of_cons in Hd' as [->|Hd'].
      * split; [by left|]. by split.
      * destruct (Hin d' Hd') as (? & ? & ?). split; [by right|].
        split; [done|set_solver].
    + intros d' Hd' Hr. apply elem_of_cons in Hd' as [->|Hd']; [set_solver|].
      specialize (Hall d' Hd' Hr). rewrite <-app_assoc in Hall. done.
Qed.


End Retrieval.

Section Downloads.
Context {FL : Float32}.

Lemma bind_always_ok {A B} (m : M A) (k : A → M B) (a : A) (w : world) :
  (m w).1 = Ok a → bind m k w = k a (m w).2.
Proof. unfold bind. destruct (m w) as [[a'|e] w1]; simpl; congruence. Qed.

Lemma when_print_ok b fmt args w : (when b (print fmt args) w).1 = Ok tt.
Proof. by destruct b. Qed.



Lemma check_exists_same_files w w' p :
  files w' = files w → dirs w' = dirs w → _check_exists w' p = _check_exists w p.
Proof.
  intros Hf Hd. unfold _check_exists, _check_exists_path, path_exists.
  by rewrite Hf, Hd.
Qed.

Lemma fetch_files_all_present (net : network) (root : string)
    (verbose : bool) (raw : list (string * string)) (w : world) :
  Forall (fun ft => _check_exists w (local_path root ft) = true) raw →
  let w' := (fetch_files net root verbose raw w).2 in
  requests w' = requests w ∧ files w' = files w ∧ dirs w' = dirs w
  ∧ ∃ evs, trace w' = trace w ++ evs ∧ Forall is_print evs.
Proof.
  revert w. induction raw as [|ft raw IH]; intros w Hall w'; subst w'.
  { simpl. repeat split; try done. exists []. by rewrite app_nil_r. }
  apply Forall_cons in Hall as [Hft Hall].
  rewrite fetch_files_cons, (fetch_file_present _ _ _ _ _ Hft). simpl.
  set (w1 := if verbose then _ else w).
  assert (Hw1 : requests w1 = requests w ∧ files w1 = files w ∧ dirs w1 = dirs w
                ∧ ∃ evs, trace w1 = trace w ++ evs ∧ Forall is_print evs).
  { subst w1. destruct verbose; simpl; repeat split; try done.
    - eexists [_]. split; [done|]. by constructor.
    - exists []. by rewrite app_nil_r. }
  destruct Hw1 as (Hq & Hf & Hd & e1 & Ht & F1).
  destruct (IH w1) as (Hq' & Hf' & Hd' & e2 & Ht' & F2).
  { eapply Forall_impl; [exact Hall|]. intros ft' H. simpl in H.
    by rewrite (check_exists_same_files w w1). }
  split; [congruence|]. split; [congruence|]. split; [congruence|].
  exists (e1 ++ e2). rewrite Ht', Ht, app_assoc. split; [done|].
  by apply Forall_app.
Qed.


Lemma append_empty (s : string) : s +:+ "" = s.
Proof.
  induction s as [|c s IH]; [done|].
  change (String c (s +:+ "") = String c s). by rewrite IH.
Qed.

Lemma path_exists_insert w p c :
  path_exists (set_files w (<[p := c]> (files w))) p = true.
Proof.
  unfold path_exists. simpl. rewrite lookup_insert_eq.
  by rewrite bool_decide_eq_true_2 by eauto.
Qed.

Lemma check_exists_of_path w p :
  path_exists w p = true ∨ path_exists w (p +:+ ".gz") = true →
  _check_exists w p = true.
Proof.
  unfold _check_exists, _check_exists_path.
  intros [H|H]; [by rewrite H|]. rewrite H. by destruct (path_exists w p).
Qed.

(** A download that gets a response leaves the file where the next run
    looks for it, even when the response breaks off half way. *)
Lemma fetch_file_leaves_file net root verbose ft w :
  always_answers net → planner_suffix ft →
  _check_exists (fetch_file net root verbose ft w).2 (local_path root ft) = true.
Proof.
  intros Hnet Hsuf.
  destruct (_check_exists w (local_path root ft)) eqn:E.
  { eapply check_exists_kept; [apply fetch_file_keeps_paths|done]. }
  unfold fetch_file, bind at 1, get_world. fold (local_path root ft). rewrite E.
  assert (Hdl : ∀ w0,
            _check_exists (download net (remote_url ft)
                             (local_path root ft +:+ ft.2) w0).2
                          (local_path root ft) = true).
  { intros w0. unfold download.
    pose proof (Hnet (requests w0) (remote_url ft)) as Hr.
    destruct (net_get net (requests w0) (remote_url ft)); [done|..]; simpl;
      apply check_exists_of_path;
      destruct Hsuf as [->| ->]; rewrite ?append_empty;
      first [left; apply (path_exists_insert (emit (count_request w0) _))
            |right; apply (path_exists_insert (emit (count_request w0) _))]. }
  fold (remote_url ft).
  unfold bind at 1.
  destruct (when verbose (print "downloading %s" [VStr (remote_url ft)]) w)
    as [[[]|e] w1] eqn:Ew; [|by destruct verbose].
  unfold try_except at 1.
  pose proof (Hdl w1) as H1.
  destruct (download net (remote_url ft) (local_path root ft +:+ ft.2) w1)
    as [[[]|e] w2] eqn:Ed; simpl in *; [done|].
  unfold bind at 1. simpl. unfold try_except.
  set (w3 := emit w2 _).
  assert (H3 : _check_exists w3 (local_path root ft) = true).
  { by rewrite (check_exists_same_files w2 w3). }
  destruct (download net (remote_url ft) (local_path root ft +:+ ft.2) w3)
    as [[[]|e'] w4] eqn:Ed'; simpl.
  - eapply check_exists_kept; [|exact H3].
    pose proof (keeps_paths_download net (remote_url ft)
                  (local_path root ft +:+ ft.2) w3) as K. by rewrite Ed' in K.
  - assert (H4 : _check_exists w4 (local_path root ft) = true).
    { eapply check_exists_kept; [|exact H3].
      pose proof (keeps_paths_download net (remote_url ft)
                    (local_path root ft +:+ ft.2) w3) as K. by rewrite Ed' in K. }
    unfold bind, print, record. simpl.
    by rewrite (check_exists_same_files w4).
Qed.


End Downloads.

Section SpatialIndex.
Context {FL : Float32}.



Lemma list_index_spec {A} `{EqDecision A} (x : A) (l : list A) :
  match list_index x l with
  | Ok i => l !! i = Some x ∧ ∀ j, (j < i)%nat → l !! j ≠ Some x
  | Raise e => e = ValueError ∧ x ∉ l
  end.
Proof.
  induction l as [|y l IH]; simpl.
  - split; [done|]. set_solver.
  - destruct (decide (x = y)) as [->|Hne].
    + split; [done|]. intros j Hj. lia.
    + destruct (list_index x l) as [i|e].
      * destruct IH as [Hi Hfirst]. split; [done|].
        intros [|j] Hj; simpl; [congruence|]. apply Hfirst. lia.
      * destruct IH as [-> Hnot]. split; [done|]. set_solver.
Qed.


Lemma arr_at_data (a : ndarray) n rest i :
  shape a = n :: rest → (i < n)%nat →
  arr_at a i
  = Ok (mk_ndarray rest
          (take (foldr Nat.mul 1%nat rest)
                (drop (i * foldr Nat.mul 1%nat rest) (data a)))).
Proof.
  intros Hs Hi. unfold arr_at. rewrite Hs.
  by rewrite (proj2 (Nat.ltb_lt i n) Hi).
Qed.

Lemma take_drop_take {A} (l : list A) (a b c : nat) :
  (b + c ≤ a)%nat → take c (drop b (take a l)) = take c (drop b l).
Proof.
  intros H. rewrite take_drop_commute, take_take.
  replace ((b + c) `min` a)%nat with (b + c)%nat by lia.
  by rewrite <-take_drop_commute.
Qed.


(** [np.unravel_index] on a two-dimensional shape gives the row and the
    column of a flat index, and these are inside the grid. *)
Lemma unravel_index_2d (i ny nx : nat) :
  (i < ny * nx)%nat →
  unravel_index i [ny; nx] = [(i / nx)%nat; (i mod nx)%nat]
  ∧ (i / nx < ny)%nat ∧ (i mod nx < nx)%nat
  ∧ ((i / nx) * nx + i mod nx = i)%nat.
Proof.
  intros H. assert (nx ≠ 0)%nat by lia.
  change (unravel_index i [ny; nx])
    with [(i / (nx * 1))%nat; ((i mod (nx * 1)) / 1)%nat].
  rewrite Nat.mul_1_r, Nat.div_1_r.
  split; [done|].
  split; [apply Nat.Div0.div_lt_upper_bound; lia|].
  split; [by apply Nat.mod_upper_bound|].
  rewrite (Nat.div_mod_eq i nx) at 3. lia.
Qed.

Lemma closest_lat_lon_run (self self1 self2 : NCARArray) (la lo : ndarray)
    (lat_q lon_q : F) :
  lat self = (Ok (Some la), self1) →
  lon self1 = (Ok (Some lo), self2) →
  shape la = shape lo →
  let q := normalize_lon lon_q in
  let dist := zip_with (fun a b => cell_distance a b lat_q q) (data la) (data lo) in
  closest_lat_lon self lat_q lon_q
  = (match np_min dist with
     | Raise e => Raise e
     | Ok m =>
         if fltb f1 m then Raise ValueError
         else match np_argmin dist with
              | Raise e => Raise e
              | Ok i => Ok (unravel_index i (shape la))
              end
     end, self2).
Proof.
  intros Hlat Hlon Hs q dist.
  unfold closest_lat_lon. fold q. rewrite Hlat, Hlon. unfold closest_in.
  by rewrite squared_distance_data by done.
Qed.

Lemma cell_distance_lookup (la lo : ndarray) (lat_q q : F) k d :
  zip_with (fun a b => cell_distance a b lat_q q) (data la) (data lo) !! k = Some d
  ↔ ∃ a b, data la !! k = Some a ∧ data lo !! k = Some b
           ∧ d = cell_distance a b lat_q q.
Proof. rewrite lookup_zip_with_Some. naive_solver. Qed.




End SpatialIndex.

Section Facade.
Context {FL : Float32} {RT : Repo}.

Lemma read_archives_ok (w : world) (paths : list string) : ∀ acc archives,
  Forall2 (fun p nc => files w !! p = Some (CNetCDF nc)) paths archives →
  for_fold paths acc
    (fun p acc => match files w !! p with
                  | Some (CNetCDF nc) => ret (acc ++ [nc])
                  | _ => raise OSError
                  end) w
  = (Ok (acc ++ archives), w).
Proof.
  induction paths as [|p paths IH]; intros acc archives H.
  - apply Forall2_nil_inv_l in H as ->. by rewrite app_nil_r.
  - apply Forall2_cons_inv_l in H as (nc & rest & Hp & Hrest & ->).
    cbn [for_fold]. unfold bind at 1. rewrite Hp. simpl.
    rewrite (IH _ rest Hrest). by rewrite <-app_assoc.
Qed.

Lemma read_archives_missing (w : world) (paths : list string) : ∀ acc,
  Exists (fun p => ∀ nc, files w !! p ≠ Some (CNetCDF nc)) paths →
  for_fold paths acc
    (fun p acc => match files w !! p with
                  | Some (CNetCDF nc) => ret (acc ++ [nc])
                  | _ => raise OSError
                  end) w
  = (Raise OSError, w).
Proof.
  induction paths as [|p paths IH]; intros acc H.
  - by apply Exists_nil in H.
  - cbn [for_fold]. unfold bind at 1.
    apply Exists_cons in H as [Hp|Hrest].
    + destruct (files w !! p) as [[| |nc| |]|]; try done. by destruct (Hp nc).
    + destruct (files w !! p) as [[| |nc| |]|]; try done. simpl. by apply IH.
Qed.



End Facade.

Section Ingestion.
Context {FL : Float32} {RT : Repo}.


End Ingestion.

(** * The further properties on the concrete data *)













